(** * gala8ball: order admission, pricing and settlement

    A shallow embedding of the trading core of [server/routes.ts]
    (the [POST /api/orders] handler with its helpers [updateUserPosition]
    and [updateMarketPrices]) over the storage layer of [server/storage.ts]
    and the tables of [shared/schema.ts].

    Numbers.  The code keeps every quantity as a decimal string, reads it
    with [parseFloat] and computes on JavaScript numbers.  The embedding
    keeps the shape of a JavaScript number ([NaN], the two infinities, a
    finite value) and the IEEE rules for them, but a finite value is an
    exact rational: rounding of doubles and of the decimal columns is not
    part of the model, nor is the sign of zero (a zero divisor counts as
    [+0]).  A stored decimal string is represented by the number
    [parseFloat] reads from it, so [toString] is the identity. *)

From Stdlib Require Import QArith Qminmax Lqa Lia List Bool PeanoNat.
From Stdlib Require String.
Import ListNotations.

Open Scope Q_scope.

(** ** JavaScript numbers *)

Module JS.

Inductive number : Type :=
| NaN
| PInf
| NInf
| Fin (q : Q).

Definition Qlt_bool (a b : Q) : bool := negb (Qle_bool b a).

Definition sgn (q : Q) : comparison := (Qnum q ?= 0)%Z.

Definition inf_of (c : comparison) : number :=
  match c with Gt => PInf | Lt => NInf | Eq => NaN end.

Definition neg (x : number) : number :=
  match x with
  | NaN => NaN
  | PInf => NInf
  | NInf => PInf
  | Fin q => Fin (- q)
  end.

(** [x + y] *)
Definition add (x y : number) : number :=
  match x, y with
  | NaN, _ | _, NaN => NaN
  | PInf, NInf | NInf, PInf => NaN
  | PInf, _ | _, PInf => PInf
  | NInf, _ | _, NInf => NInf
  | Fin a, Fin b => Fin (a + b)
  end.

(** [x - y] *)
Definition sub (x y : number) : number := add x (neg y).

(** [x * y] *)
Definition mul (x y : number) : number :=
  match x, y with
  | NaN, _ | _, NaN => NaN
  | PInf, PInf | NInf, NInf => PInf
  | PInf, NInf | NInf, PInf => NInf
  | PInf, Fin b | Fin b, PInf => inf_of (sgn b)
  | NInf, Fin b | Fin b, NInf => inf_of (CompOpp (sgn b))
  | Fin a, Fin b => Fin (a * b)
  end.

(** [x / y] *)
Definition div (x y : number) : number :=
  match x, y with
  | NaN, _ | _, NaN => NaN
  | PInf, PInf | PInf, NInf | NInf, PInf | NInf, NInf => NaN
  | PInf, Fin b => match sgn b with Lt => NInf | _ => PInf end
  | NInf, Fin b => match sgn b with Lt => PInf | _ => NInf end
  | Fin _, PInf | Fin _, NInf => Fin 0
  | Fin a, Fin b =>
      match sgn b with
      | Eq => inf_of (sgn a)
      | _ => Fin (a / b)
      end
  end.

(** [x < y]; every comparison with [NaN] is false. *)
Definition lt (x y : number) : bool :=
  match x, y with
  | NaN, _ | _, NaN => false
  | _, NInf => false
  | PInf, _ => false
  | NInf, _ => true
  | _, PInf => true
  | Fin a, Fin b => Qlt_bool a b
  end.

(** [x <= y] *)
Definition le (x y : number) : bool :=
  match x, y with
  | NaN, _ | _, NaN => false
  | NInf, _ => true
  | _, PInf => true
  | _, NInf => false
  | PInf, _ => false
  | Fin a, Fin b => Qle_bool a b
  end.

(** [x > y] *)
Definition gt (x y : number) : bool := lt y x.

(** [x >= y] *)
Definition ge (x y : number) : bool := le y x.

(** [Math.min(x, y)] *)
Definition min (x y : number) : number :=
  match x, y with
  | NaN, _ | _, NaN => NaN
  | _, _ => if le x y then x else y
  end.

(** [Math.max(x, y)] *)
Definition max (x y : number) : number :=
  match x, y with
  | NaN, _ | _, NaN => NaN
  | _, _ => if le y x then x else y
  end.

(** [parseFloat(s)] of an optional string: [undefined] and [null] read as
    [NaN]. *)
Definition parseFloat (s : option number) : number :=
  match s with
  | Some x => x
  | None => NaN
  end.

(** [s || d] on an optional string. *)
Definition or_else (s : option number) (d : number) : number :=
  match s with
  | Some x => x
  | None => d
  end.

End JS.

Import JS.

Declare Scope js_scope.
Delimit Scope js_scope with js.
Infix "+" := JS.add : js_scope.
Infix "-" := JS.sub : js_scope.
Infix "*" := JS.mul : js_scope.
Infix "/" := JS.div : js_scope.
Infix "<?" := JS.lt (at level 70, no associativity) : js_scope.
Infix "<=?" := JS.le (at level 70, no associativity) : js_scope.
Infix ">?" := JS.gt (at level 70, no associativity) : js_scope.
Infix ">=?" := JS.ge (at level 70, no associativity) : js_scope.

(** ** Tables ([shared/schema.ts])

    A row carries the columns the trading core reads or writes; text and
    timestamp columns that no code path of the core touches (question,
    category, createdAt, ...) are left out.  A decimal column holds the
    number its string parses to, a [NULL] one reads as [NaN].  Primary keys
    are drawn by the database ([gen_random_uuid()]); the model draws them
    from a counter. *)

Definition Id := nat.

Inductive Outcome := yes | no.
(** ['market' | 'limit'] *)
Inductive OrderType := ty_market | ty_limit.
Inductive OrderSide := buy | sell.
Inductive OrderStatus := pending | partial | filled | cancelled | expired.
Inductive MarketStatus := active | resolved | disputed | closed.

Definition side_eqb (a b : OrderSide) : bool :=
  match a, b with
  | buy, buy | sell, sell => true
  | _, _ => false
  end.

Definition outcome_eqb (a b : Outcome) : bool :=
  match a, b with
  | yes, yes | no, no => true
  | _, _ => false
  end.

Record Market := mkMarket {
  m_id : Id;
  m_status : MarketStatus;
  m_yesPrice : number;
  m_noPrice : number;
  m_volume : number;
  m_liquidity : number;
  m_tradingFee : number
}.

Record Position := mkPosition {
  p_id : Id;
  p_userId : Id;
  p_marketId : Id;
  p_outcome : Outcome;
  p_shares : number;
  p_avgPrice : number;
  p_totalCost : number
}.

Record Order := mkOrder {
  o_id : Id;
  o_userId : Id;
  o_marketId : Id;
  o_type : OrderType;
  o_side : OrderSide;
  o_outcome : Outcome;
  o_amount : number;
  o_limitPrice : option number;
  o_maxSlippage : option number;
  o_minPrice : option number;
  o_maxPrice : option number;
  o_shares : number;
  o_filledShares : number;
  o_avgFillPrice : option number;
  o_status : OrderStatus
}.

Record Trade := mkTrade {
  t_id : Id;
  t_buyOrderId : option Id;
  t_sellOrderId : option Id;
  t_marketId : Id;
  t_buyerId : option Id;
  t_sellerId : option Id;
  t_outcome : Outcome;
  t_shares : number;
  t_price : number;
  t_amount : number
}.

Record UserBalance := mkUserBalance {
  b_id : Id;
  b_userId : Id;
  b_balance : number
}.

(** [InsertOrder]: the request body once [insertOrderSchema.parse] has
    accepted it.  An optional field is [None] when the string is missing,
    [null] or empty (the three are falsy and parse to [NaN] alike).
    [shares] is [notNull] in the table, so the caller has to send one. *)
Record InsertOrder := mkInsertOrder {
  userId : Id;
  marketId : Id;
  type : OrderType;
  side : OrderSide;
  outcome : Outcome;
  amount : number;
  limitPrice : option number;
  maxSlippage : option number;
  minPrice : option number;
  maxPrice : option number;
  shares : number
}.

(** [InsertTrade] *)
Record InsertTrade := mkInsertTrade {
  it_buyOrderId : option Id;
  it_sellOrderId : option Id;
  it_marketId : Id;
  it_buyerId : option Id;
  it_sellerId : option Id;
  it_outcome : Outcome;
  it_shares : number;
  it_price : number;
  it_amount : number
}.

(** ** The storage layer ([DatabaseStorage] in [server/storage.ts])

    A table is the list of its rows.  [select ... where] keeps the first
    matching row, [update ... where] rewrites every matching row, [insert]
    appends.  Storage failures are not modelled: every statement succeeds. *)

Record Storage := mkStorage {
  markets : list Market;
  positions : list Position;
  orders : list Order;
  trades : list Trade;
  userBalances : list UserBalance;
  nextId : Id
}.

Definition getMarket (st : Storage) (id : Id) : option Market :=
  find (fun m => m_id m =? id)%nat (markets st).

(** [updateMarket(id, { volume, yesPrice, noPrice })] *)
Definition updateMarket (st : Storage) (id : Id)
    (volume yesPrice noPrice : number) : Storage :=
  mkStorage
    (map (fun m =>
            if (m_id m =? id)%nat
            then mkMarket (m_id m) (m_status m) yesPrice noPrice volume
                          (m_liquidity m) (m_tradingFee m)
            else m)
         (markets st))
    (positions st) (orders st) (trades st) (userBalances st) (nextId st).

Definition getPosition (st : Storage) (uid mid : Id) (oc : Outcome)
    : option Position :=
  find (fun p => (p_userId p =? uid)%nat && (p_marketId p =? mid)%nat
                 && outcome_eqb (p_outcome p) oc)
       (positions st).

(** [createPosition({ userId, marketId, outcome, shares, avgPrice, totalCost })] *)
Definition createPosition (st : Storage) (uid mid : Id) (oc : Outcome)
    (shares avgPrice totalCost : number) : Storage :=
  mkStorage (markets st)
    (positions st ++ [mkPosition (nextId st) uid mid oc shares avgPrice totalCost])
    (orders st) (trades st) (userBalances st) (S (nextId st)).

(** [updatePosition(id, { shares, totalCost, avgPrice })] *)
Definition updatePosition (st : Storage) (id : Id)
    (shares totalCost avgPrice : number) : Storage :=
  mkStorage (markets st)
    (map (fun p =>
            if (p_id p =? id)%nat
            then mkPosition (p_id p) (p_userId p) (p_marketId p) (p_outcome p)
                            shares avgPrice totalCost
            else p)
         (positions st))
    (orders st) (trades st) (userBalances st) (nextId st).

(** [createOrder(insertOrder)]: the columns left out of the insert take
    their defaults ([status] pending, [filledShares] 0, [maxSlippage] 0.05). *)
Definition createOrder (st : Storage) (o : InsertOrder) : Order * Storage :=
  let row :=
    mkOrder (nextId st) (userId o) (marketId o) (type o) (side o) (outcome o)
            (amount o) (limitPrice o)
            (Some (or_else (maxSlippage o) (Fin (5 # 100))))
            (minPrice o) (maxPrice o) (shares o)
            (Fin 0) None pending in
  (row,
   mkStorage (markets st) (positions st) (orders st ++ [row]) (trades st)
             (userBalances st) (S (nextId st))).

(** [updateOrder(id, { status, filledShares, avgFillPrice })] *)
Definition updateOrder (st : Storage) (id : Id) (status : OrderStatus)
    (filledShares avgFillPrice : number) : Storage :=
  mkStorage (markets st) (positions st)
    (map (fun o =>
            if (o_id o =? id)%nat
            then mkOrder (o_id o) (o_userId o) (o_marketId o) (o_type o)
                         (o_side o) (o_outcome o) (o_amount o) (o_limitPrice o)
                         (o_maxSlippage o) (o_minPrice o) (o_maxPrice o)
                         (o_shares o) filledShares (Some avgFillPrice) status
            else o)
         (orders st))
    (trades st) (userBalances st) (nextId st).

Definition createTrade (st : Storage) (t : InsertTrade) : Trade * Storage :=
  let row :=
    mkTrade (nextId st) (it_buyOrderId t) (it_sellOrderId t) (it_marketId t)
            (it_buyerId t) (it_sellerId t) (it_outcome t) (it_shares t)
            (it_price t) (it_amount t) in
  (row,
   mkStorage (markets st) (positions st) (orders st) (trades st ++ [row])
             (userBalances st) (S (nextId st))).

Definition getUserBalance (st : Storage) (uid : Id) : option UserBalance :=
  find (fun b => b_userId b =? uid)%nat (userBalances st).

Definition updateUserBalance (st : Storage) (uid : Id) (balance : number)
    : Storage :=
  mkStorage (markets st) (positions st) (orders st) (trades st)
    (map (fun b =>
            if (b_userId b =? uid)%nat
            then mkUserBalance (b_id b) (b_userId b) balance
            else b)
         (userBalances st))
    (nextId st).

(** ** The trading core ([server/routes.ts]) *)

Open Scope js_scope.

(** [updateUserPosition]: the buy side of the position ledger. *)
Definition updateUserPosition (storage : Storage) (userId marketId : Id)
    (outcome : Outcome) (shares price amount : number) : Storage :=
  match getPosition storage userId marketId outcome with
  | Some existingPosition =>
      let newShares := p_shares existingPosition + shares in
      let newTotalCost := p_totalCost existingPosition + amount in
      let newAvgPrice := newTotalCost / newShares in
      updatePosition storage (p_id existingPosition)
                     newShares newTotalCost newAvgPrice
  | None =>
      createPosition storage userId marketId outcome shares price amount
  end.

(** The price part of [updateMarketPrices]: the impact of a trade and the
    YES price it leaves. *)
Definition baseImpact : number := Fin (1 # 100).

Definition priceImpact (tradeAmount : number) : number :=
  let volumeMultiplier := JS.min (tradeAmount / Fin 1000) (Fin (5 # 100)) in
  baseImpact + volumeMultiplier.

Definition nextYesPrice (yesPrice : number) (outcome : Outcome)
    (side : OrderSide) (tradeAmount : number) : number :=
  if (outcome_eqb outcome yes && side_eqb side buy)
     || (outcome_eqb outcome no && side_eqb side sell)
  then JS.min (Fin (95 # 100)) (yesPrice + priceImpact tradeAmount)
  else JS.max (Fin (5 # 100)) (yesPrice - priceImpact tradeAmount).

(** [updateMarketPrices] *)
Definition updateMarketPrices (storage : Storage) (marketId : Id)
    (outcome : Outcome) (side : OrderSide) (tradeAmount : number) : Storage :=
  match getMarket storage marketId with
  | None => storage
  | Some market =>
      let newVolume := m_volume market + tradeAmount in
      let yesPrice := nextYesPrice (m_yesPrice market) outcome side tradeAmount in
      updateMarket storage marketId newVolume yesPrice (Fin 1 - yesPrice)
  end.

(** The answers of [POST /api/orders].  [Error status kind] stands for
    [res.status(status).json({ error: ... })]; the kinds are the messages
    "Market not found", "User balance not found", "Insufficient balance",
    "Insufficient shares to sell", "Price exceeds maximum limit",
    "Price below minimum limit" and "Price exceeds slippage tolerance" /
    "Price below slippage tolerance".  [InvalidOrder] is the "Invalid order
    data" answer of the [ZodError] catch: [insertOrderSchema.parse] raises
    it before the first storage call, so the handler below, which starts
    from a parsed body, never builds it.  [Created] is the 201 answer
    [{ order, trade, executed, executionPrice }]. *)
Inductive ErrorKind :=
| MarketNotFound
| BalanceNotFound
| InsufficientBalance
| InsufficientShares
| PriceAboveMax
| PriceBelowMin
| SlippageExceeded
| InvalidOrder.

Inductive Response :=
| Error (status : nat) (kind : ErrorKind)
| Created (order : Order) (trade : option Trade) (executed : bool)
          (executionPrice : option number).

Definition with_status (o : Order) (s : OrderStatus) : Order :=
  mkOrder (o_id o) (o_userId o) (o_marketId o) (o_type o) (o_side o)
          (o_outcome o) (o_amount o) (o_limitPrice o) (o_maxSlippage o)
          (o_minPrice o) (o_maxPrice o) (o_shares o) (o_filledShares o)
          (o_avgFillPrice o) s.

(** [{ ...validatedData, shares: actualShares.toString() }] *)
Definition with_shares (v : InsertOrder) (s : number) : InsertOrder :=
  mkInsertOrder (userId v) (marketId v) (type v) (side v) (outcome v)
                (amount v) (limitPrice v) (maxSlippage v) (minPrice v)
                (maxPrice v) s.

(** "Calculate execution parameters based on order type": the pair
    [(canExecute, executionPrice)], or the early 400 of the market branch. *)
Definition executionParameters (validatedData : InsertOrder)
    (currentPrice : number) : ErrorKind + bool * number :=
  let executionPrice := currentPrice in
  match type validatedData with
  | ty_market =>
      if match maxPrice validatedData with
         | Some maxPrice' => executionPrice >? maxPrice'
         | None => false
         end
      then inl PriceAboveMax
      else if match minPrice validatedData with
              | Some minPrice' => executionPrice <? minPrice'
              | None => false
              end
      then inl PriceBelowMin
      else inr (true, executionPrice)
  | ty_limit =>
      let limitPrice' := parseFloat (limitPrice validatedData) in
      match side validatedData with
      | buy => inr (currentPrice <=? limitPrice', JS.min currentPrice limitPrice')
      | sell => inr (currentPrice >=? limitPrice', JS.max currentPrice limitPrice')
      end
  end.

(** The sell side of the position ledger (the tail of the sell branch). *)
Definition reducePosition (storage : Storage) (existingPosition : Position)
    (actualShares : number) : Storage :=
  let newShares := p_shares existingPosition - actualShares in
  if newShares <=? Fin 0 then
    updatePosition storage (p_id existingPosition)
                   (Fin 0) (Fin 0) (p_avgPrice existingPosition)
  else
    let avgPrice := p_avgPrice existingPosition in
    let costReduction := actualShares * avgPrice in
    let newTotalCost := p_totalCost existingPosition - costReduction in
    updatePosition storage (p_id existingPosition)
                   newShares (JS.max (Fin 0) newTotalCost)
                   (p_avgPrice existingPosition).

(** [app.post("/api/orders", ...)] on a validated body. *)
Definition postOrders (storage : Storage) (validatedData : InsertOrder)
    : Response * Storage :=
  match getMarket storage (marketId validatedData) with
  | None => (Error 404 MarketNotFound, storage)
  | Some market =>
  match getUserBalance storage (userId validatedData) with
  | None => (Error 404 BalanceNotFound, storage)
  | Some userBalance =>
  if side_eqb (side validatedData) buy
     && (b_balance userBalance <? amount validatedData)
  then (Error 400 InsufficientBalance, storage)
  else
  let currentPrice :=
    match outcome validatedData with
    | yes => m_yesPrice market
    | no => m_noPrice market
    end in
  if side_eqb (side validatedData) sell
     && match getPosition storage (userId validatedData)
                          (marketId validatedData) (outcome validatedData) with
        | None => true
        | Some existingPosition =>
            let actualAmount := amount validatedData in
            let requiredShares := actualAmount / currentPrice in
            p_shares existingPosition <? requiredShares
        end
  then (Error 400 InsufficientShares, storage)
  else
  match executionParameters validatedData currentPrice with
  | inl kind => (Error 400 kind, storage)
  | inr (canExecute, executionPrice) =>
  let actualAmount := amount validatedData in
  let actualShares := actualAmount / executionPrice in
  let (order, storage1) :=
    createOrder storage (with_shares validatedData actualShares) in
  if canExecute then
    let maxSlippage' := or_else (maxSlippage validatedData) (Fin (5 # 100)) in
    let slippageBound :=
      match side validatedData with
      | buy => currentPrice * (Fin 1 + maxSlippage')
      | sell => currentPrice * (Fin 1 - maxSlippage')
      end in
    if side_eqb (side validatedData) buy && (executionPrice >? slippageBound)
    then (Error 400 SlippageExceeded, storage1)
    else if side_eqb (side validatedData) sell
            && (executionPrice <? slippageBound)
    then (Error 400 SlippageExceeded, storage1)
    else
    let finish (trade : Trade) (storage4 : Storage) :=
      let storage5 :=
        updateMarketPrices storage4 (marketId validatedData)
                           (outcome validatedData) (side validatedData)
                           actualAmount in
      let storage6 :=
        updateOrder storage5 (o_id order) filled actualShares executionPrice in
      (Created (with_status order filled) (Some trade) true
               (Some executionPrice),
       storage6) in
    match side validatedData with
    | buy =>
        let (trade, storage2) :=
          createTrade storage1
            (mkInsertTrade (Some (o_id order)) None (marketId validatedData)
                           (Some (userId validatedData)) None
                           (outcome validatedData)
                           actualShares executionPrice actualAmount) in
        let newBalance := b_balance userBalance - actualAmount in
        let storage3 :=
          updateUserBalance storage2 (userId validatedData) newBalance in
        let storage4 :=
          updateUserPosition storage3 (userId validatedData)
                             (marketId validatedData) (outcome validatedData)
                             actualShares executionPrice actualAmount in
        finish trade storage4
    | sell =>
        match getPosition storage1 (userId validatedData)
                          (marketId validatedData) (outcome validatedData) with
        | None => (Error 400 InsufficientShares, storage1)
        | Some existingPosition =>
            if p_shares existingPosition <? actualShares
            then (Error 400 InsufficientShares, storage1)
            else
              let (trade, storage2) :=
                createTrade storage1
                  (mkInsertTrade None (Some (o_id order))
                                 (marketId validatedData)
                                 None (Some (userId validatedData))
                                 (outcome validatedData)
                                 actualShares executionPrice actualAmount) in
              let newBalance := b_balance userBalance + actualAmount in
              let storage3 :=
                updateUserBalance storage2 (userId validatedData) newBalance in
              let storage4 :=
                reducePosition storage3 existingPosition actualShares in
              finish trade storage4
        end
    end
  else
    (Created (with_status order pending) None false None, storage1)
  end
  end
  end.

(** ** The other routes and the rest of the storage layer

    The [users] table sits beside the ledgers; its rows take their keys from
    the same counter.  A unique column refuses a second row with the same
    value ([NULL]s never collide): the insert throws, nothing is written
    and the route's [catch] answers 500.  The listing queries keep the rows
    in table order; the [orderBy(desc(createdAt))] of the code is not
    modelled, so only membership and length of a listing are meaningful. *)

Record User := mkUser {
  u_id : Id;
  u_walletAddress : option String.string;
  u_username : option String.string
}.

Record Database := mkDatabase {
  users : list User;
  ledgers : Storage
}.

Definition text_is (s : option String.string) (w : String.string) : bool :=
  match s with
  | Some x => String.eqb x w
  | None => false
  end.

(** A unique text column already holds the value of a new row. *)
Definition collides (col : User -> option String.string)
    (v : option String.string) (rows : list User) : bool :=
  match v with
  | Some w => existsb (fun u => text_is (col u) w) rows
  | None => false
  end.

Definition getUser (db : Database) (id : Id) : option User :=
  find (fun u => u_id u =? id)%nat (users db).

Definition getUserByWalletAddress (db : Database) (walletAddress : String.string)
    : option User :=
  find (fun u => text_is (u_walletAddress u) walletAddress) (users db).

(** [createUser]: the user row, then its balance row of 1000. *)
Definition createUser (db : Database)
    (walletAddress username : option String.string)
    : option (User * Database) :=
  if collides u_walletAddress walletAddress (users db)
     || collides u_username username (users db)
  then None
  else
    let st := ledgers db in
    let user := mkUser (nextId st) walletAddress username in
    Some (user,
          mkDatabase
            (users db ++ [user])
            (mkStorage (markets st) (positions st) (orders st) (trades st)
                       (userBalances st
                        ++ [mkUserBalance (S (nextId st)) (u_id user) (Fin 1000)])
                       (S (S (nextId st))))).

(** The answers of [POST /api/users]: the existing user (200), the new one
    (201) or "Failed to create user" (500). *)
Inductive UserAnswer :=
| UserFound (user : User)
| UserCreated (user : User)
| UserFailed.

(** [app.post("/api/users", ...)] on a validated body that carries the
    wallet address the route asserts ([validatedData.walletAddress!]). *)
Definition postUsers (db : Database) (walletAddress : String.string)
    (username : option String.string) : UserAnswer * Database :=
  match getUserByWalletAddress db walletAddress with
  | Some existingUser => (UserFound existingUser, db)
  | None =>
      match createUser db (Some walletAddress) username with
      | Some (user, db') => (UserCreated user, db')
      | None => (UserFailed, db)
      end
  end.

(** The answers of [PATCH /api/users/:id/balance]: "Invalid balance amount"
    (400) or the updated row as JSON (200; no body when the user has no
    balance row). *)
Inductive BalanceAnswer :=
| InvalidBalance
| BalanceJson (row : option UserBalance).

(** [app.patch("/api/users/:id/balance", ...)].  [balance] is [None] for a
    falsy field of the body (missing, [null], empty, the number 0). *)
Definition patchBalance (storage : Storage) (id : Id) (balance : option number)
    : BalanceAnswer * Storage :=
  match balance with
  | None => (InvalidBalance, storage)
  | Some balance' =>
      if balance' <? Fin 0 then (InvalidBalance, storage)
      else
        let storage' := updateUserBalance storage id balance' in
        (BalanceJson (getUserBalance storage' id), storage')
  end.

(** [InsertMarket]: the columns of a validated [POST /api/markets] body that
    the core reads ([volume], [yesPrice] and [noPrice] are not part of the
    schema). *)
Record InsertMarket := mkInsertMarket {
  im_status : option MarketStatus;
  im_liquidity : option number;
  im_tradingFee : option number
}.

(** [createMarket]: the caller's columns, then the fixed opening values
    spread over them. *)
Definition createMarket (st : Storage) (insertMarket : InsertMarket)
    : Market * Storage :=
  let row :=
    mkMarket (nextId st)
             (match im_status insertMarket with Some s => s | None => active end)
             (Fin (1 # 2)) (Fin (1 # 2)) (Fin 0) (Fin 1000)
             (or_else (im_tradingFee insertMarket) (Fin (2 # 100))) in
  (row,
   mkStorage (markets st ++ [row]) (positions st) (orders st) (trades st)
             (userBalances st) (S (nextId st))).

Definition getUserPositions (st : Storage) (userId : Id) : list Position :=
  filter (fun p => p_userId p =? userId)%nat (positions st).

Definition id_is (x : option Id) (id : Id) : bool :=
  match x with
  | Some y => (y =? id)%nat
  | None => false
  end.

Definition getUserOrders (st : Storage) (userId : Id) : list Order :=
  filter (fun o => o_userId o =? userId)%nat (orders st).

Definition getMarketTrades (st : Storage) (marketId : Id) : list Trade :=
  filter (fun t => t_marketId t =? marketId)%nat (trades st).

(** [getUserTrades]: the trades whose [buyerId] is the user. *)
Definition getUserTrades (st : Storage) (userId : Id) : list Trade :=
  filter (fun t => id_is (t_buyerId t) userId) (trades st).

(** * Auxiliary definitions

    The vocabulary of the statements below: the pricing rule in the words
    of the design, the rows and ledgers a filled order leaves, and a few
    sample ledgers and requests. *)

(** The price the market quotes for an outcome. *)
Definition quote (m : Market) (oc : Outcome) : number :=
  match oc with
  | yes => m_yesPrice m
  | no => m_noPrice m
  end.

(** The trade row a filled order inserts. *)
Definition tradeOf (orderId : Id) (v : InsertOrder) (price : number)
    : InsertTrade :=
  match side v with
  | buy =>
      mkInsertTrade (Some orderId) None (marketId v) (Some (userId v)) None
                    (outcome v) (amount v / price) price (amount v)
  | sell =>
      mkInsertTrade None (Some orderId) (marketId v) None (Some (userId v))
                    (outcome v) (amount v / price) price (amount v)
  end.

(** The balance a filled order writes. *)
Definition balanceAfter (v : InsertOrder) (ub : UserBalance) : number :=
  match side v with
  | buy => b_balance ub - amount v
  | sell => b_balance ub + amount v
  end.

(** The slippage test of the handler at an execution price equal to the
    quoted price [c]. *)
Definition slippageBreached (v : InsertOrder) (c : number) : bool :=
  let maxSlippage' := or_else (maxSlippage v) (Fin (5 # 100)) in
  match side v with
  | buy => c >? c * (Fin 1 + maxSlippage')
  | sell => c <? c * (Fin 1 - maxSlippage')
  end.

(** The request finds its market [m] and its balance row [ub] and passes
    the balance check (buy) or the share check (sell). *)
Definition prechecks (st : Storage) (v : InsertOrder) (m : Market)
    (ub : UserBalance) : Prop :=
  getMarket st (marketId v) = Some m /\
  getUserBalance st (userId v) = Some ub /\
  (side v = buy -> (b_balance ub <? amount v) = false) /\
  (side v = sell ->
   exists pos,
     getPosition st (userId v) (marketId v) (outcome v) = Some pos /\
     (p_shares pos <? amount v / quote m (outcome v)) = false).

(** The storage a filled order leaves, write by write. *)
Definition settledStorage (st : Storage) (v : InsertOrder) (ub : UserBalance)
    (price : number) (pos : option Position) : Storage :=
  let sh := amount v / price in
  let st1 := snd (createOrder st (with_shares v sh)) in
  let st2 := snd (createTrade st1 (tradeOf (nextId st) v price)) in
  let st3 := updateUserBalance st2 (userId v) (balanceAfter v ub) in
  let st4 :=
    match side v, pos with
    | buy, _ =>
        updateUserPosition st3 (userId v) (marketId v) (outcome v)
                           sh price (amount v)
    | sell, Some p => reducePosition st3 p sh
    | sell, None => st3
    end in
  updateOrder
    (updateMarketPrices st4 (marketId v) (outcome v) (side v) (amount v))
    (nextId st) filled sh price.







Definition sampleMarket : Market :=
  mkMarket 1%nat active (Fin (1 # 2)) (Fin (1 # 2)) (Fin 0) (Fin 1000)
           (Fin (2 # 100)).

Definition sampleBalance : UserBalance := mkUserBalance 10%nat 7%nat (Fin 1000).

(** One market at 0.50 / 0.50 and one user (id 7) holding 1000 in cash. *)
Definition sampleStorage : Storage :=
  mkStorage [sampleMarket] [] [] [] [sampleBalance] 100%nat.

(** A market buy of YES for 100. *)
Definition sampleBuy : InsertOrder :=
  mkInsertOrder 7%nat 1%nat ty_market buy yes (Fin 100) None None None None
                (Fin 1).

(** The ledgers once [sampleBuy] has been filled. *)
Definition sampleStorage1 : Storage := snd (postOrders sampleStorage sampleBuy).

(** A market buy of YES for 100 that tolerates no price at all
    ([maxSlippage] = -0.01). *)
Definition tightBuy : InsertOrder :=
  mkInsertOrder 7%nat 1%nat ty_market buy yes (Fin 100) None
                (Some (Fin (- (1 # 100)))) None None (Fin 1).

(** A market sell of YES for 52 by a user who holds no position. *)
Definition nakedSell : InsertOrder :=
  mkInsertOrder 7%nat 1%nat ty_market sell yes (Fin 52) None None None None
                (Fin 1).


(** A limit buy of YES for 60 at 0.60 that also names a maximum price of
    0.40. *)
Definition highLimitBuy : InsertOrder :=
  mkInsertOrder 7%nat 1%nat ty_limit buy yes (Fin 60) (Some (Fin (6 # 10)))
                None None (Some (Fin (4 # 10))) (Fin 1).

(** A limit buy of YES for 52 that names no limit price. *)
Definition noLimitBuy : InsertOrder :=
  mkInsertOrder 7%nat 1%nat ty_limit buy yes (Fin 52) None None None None
                (Fin 1).

(** A market buy of YES for 100 with a maximum price of 0.40. *)
Definition cappedBuy : InsertOrder :=
  mkInsertOrder 7%nat 1%nat ty_market buy yes (Fin 100) None None None
                (Some (Fin (4 # 10))) (Fin 1).

(** The same ledgers with every market's [tradingFee] rewritten by [f]. *)
Definition feeOf (f : number -> number) (m : Market) : Market :=
  mkMarket (m_id m) (m_status m) (m_yesPrice m) (m_noPrice m) (m_volume m)
           (m_liquidity m) (f (m_tradingFee m)).

Definition withTradingFee (f : number -> number) (st : Storage) : Storage :=
  mkStorage (map (feeOf f) (markets st)) (positions st) (orders st)
            (trades st) (userBalances st) (nextId st).

(** The position row a sell leaves. *)
Definition reducedPosition (pos : Position) (sh : number) : Position :=
  if p_shares pos - sh <=? Fin 0
  then mkPosition (p_id pos) (p_userId pos) (p_marketId pos) (p_outcome pos)
                  (Fin 0) (p_avgPrice pos) (Fin 0)
  else mkPosition (p_id pos) (p_userId pos) (p_marketId pos) (p_outcome pos)
                  (p_shares pos - sh) (p_avgPrice pos)
                  (JS.max (Fin 0) (p_totalCost pos - sh * p_avgPrice pos)).

(** The position row a buy leaves. *)
Definition increasedPosition (st : Storage) (v : InsertOrder) (c : number)
    : Position :=
  let sh := amount v / c in
  match getPosition st (userId v) (marketId v) (outcome v) with
  | Some pos =>
      mkPosition (p_id pos) (p_userId pos) (p_marketId pos) (p_outcome pos)
                 (p_shares pos + sh)
                 ((p_totalCost pos + amount v) / (p_shares pos + sh))
                 (p_totalCost pos + amount v)
  | None =>
      mkPosition (S (S (nextId st))) (userId v) (marketId v) (outcome v)
                 sh c (amount v)
  end.

(** How the held share count moved: by [sh] up on a buy (from nothing when
    there was no position), by [sh] down on a sell. *)
Definition sharesMovedBy (before : option Position) (after : Position)
    (sd : OrderSide) (sh : number) : Prop :=
  match sd, before with
  | buy, Some pos => p_shares after = p_shares pos + sh
  | buy, None => p_shares after = sh
  | sell, Some pos =>
      forall s q : Q,
        p_shares pos = Fin s -> sh = Fin q ->
        exists s', p_shares after = Fin s' /\ (s' == s - q)%Q
  | sell, None => False
  end.

(** A market sell of YES for 56 (100 shares at the 0.56 the sample market
    quotes after [sampleBuy]). *)
Definition sampleSell : InsertOrder :=
  mkInsertOrder 7%nat 1%nat ty_market sell yes (Fin 56) None None None None
                (Fin 1).

Definition sampleStorage2 : Storage := snd (postOrders sampleStorage1 sampleSell).

(** ** Well-formed ledgers *)




(** The cost basis of a position agrees with its shares and average
    price. *)
Definition cost_basis_ok (p : Position) : Prop :=
  exists s a t : Q,
    p_shares p = Fin s /\ p_avgPrice p = Fin a /\ p_totalCost p = Fin t /\
    (0 <= s)%Q /\ (0 <= a)%Q /\ (t == s * a)%Q.


(** The order a trade row belongs to. *)
Definition tradeOrderId (t : Trade) : option Id :=
  match t_buyOrderId t with
  | Some id => Some id
  | None => t_sellOrderId t
  end.

Definition tradesOfOrder (st : Storage) (orderId : Id) : list Trade :=
  filter (fun t => id_is (tradeOrderId t) orderId) (trades st).

(** The books of orders and trades: keys below the counter and distinct,
    every trade on an order below the counter, a filled order filled in
    full with exactly one trade, any other order with none. *)
Definition books_ok (st : Storage) : Prop :=
  Forall (fun o => o_id o < nextId st)%nat (orders st) /\
  NoDup (map o_id (orders st)) /\
  Forall (fun t => exists id, tradeOrderId t = Some id /\ (id < nextId st)%nat)
         (trades st) /\
  Forall (fun o =>
            match o_status o with
            | filled =>
                o_filledShares o = o_shares o /\
                length (tradesOfOrder st (o_id o)) = 1%nat
            | _ => tradesOfOrder st (o_id o) = []
            end)
         (orders st).

(** ** The interface as a machine *)

Inductive ApiCall :=
| PostOrders (validatedData : InsertOrder)
| PatchBalance (id : Id) (balance : option number)
| PostMarkets (insertMarket : InsertMarket)
| PostUsers (walletAddress : String.string) (username : option String.string).

Definition apiStep (db : Database) (c : ApiCall) : Database :=
  match c with
  | PostOrders v => mkDatabase (users db) (snd (postOrders (ledgers db) v))
  | PatchBalance id b => mkDatabase (users db) (snd (patchBalance (ledgers db) id b))
  | PostMarkets im => mkDatabase (users db) (snd (createMarket (ledgers db) im))
  | PostUsers w n => snd (postUsers db w n)
  end.


Definition emptyDatabase : Database :=
  mkDatabase [] (mkStorage [] [] [] [] [] 0%nat).

(** The same ledgers with every market's [status] and [liquidity]
    rewritten. *)
Definition relabelled (fs : MarketStatus -> MarketStatus)
    (fl : number -> number) (m : Market) : Market :=
  mkMarket (m_id m) (fs (m_status m)) (m_yesPrice m) (m_noPrice m)
           (m_volume m) (fl (m_liquidity m)) (m_tradingFee m).

Definition withStatusAndLiquidity (fs : MarketStatus -> MarketStatus)
    (fl : number -> number) (st : Storage) : Storage :=
  mkStorage (map (relabelled fs fl) (markets st)) (positions st) (orders st)
            (trades st) (userBalances st) (nextId st).


(** A short session on an empty database: a user signs in (key 0, balance
    row 1), a market is created (key 2), the balance is set to 500 and the
    user buys YES for 100. *)
Module SampleText.
Import String.
Local Open Scope string_scope.
Definition sampleWallet : string := "0xA11CE".
End SampleText.

Definition sampleCalls : list ApiCall :=
  [PostUsers SampleText.sampleWallet None;
   PostMarkets (mkInsertMarket None None None);
   PatchBalance 0%nat (Some (Fin 500));
   PostOrders (mkInsertOrder 0%nat 2%nat ty_market buy yes (Fin 100)
                             None None None None (Fin 1))].

(** A market buy of YES for -100. *)
Definition negativeBuy : InsertOrder :=
  mkInsertOrder 7%nat 1%nat ty_market buy yes (Fin (- (100))) None None None
                None (Fin 1).

(** A market buy of YES for 100 on the market the next insert creates in
    [sampleStorage] (key 100). *)
Definition newMarketBuy : InsertOrder :=
  mkInsertOrder 7%nat 100%nat ty_market buy yes (Fin 100) None None None None
                (Fin 1).

(** * Properties *)

(** ** Numbers *)

Lemma Qlt_bool_iff (a b : Q) : JS.Qlt_bool a b = true <-> (a < b)%Q.
Proof.
  unfold JS.Qlt_bool. rewrite negb_true_iff.
  split; intro H.
  - apply Qnot_le_lt. intro Hle. apply Qle_bool_iff in Hle. congruence.
  - destruct (Qle_bool b a) eqn:E; [|reflexivity].
    apply Qle_bool_iff in E. exfalso. apply (Qlt_not_le _ _ H E).
Qed.

Lemma Qlt_bool_false (a b : Q) : JS.Qlt_bool a b = false <-> (b <= a)%Q.
Proof.
  unfold JS.Qlt_bool. rewrite negb_false_iff. apply Qle_bool_iff.
Qed.

Lemma Qle_bool_false (a b : Q) : Qle_bool a b = false <-> (b < a)%Q.
Proof.
  rewrite <- Qlt_bool_iff. unfold JS.Qlt_bool.
  destruct (Qle_bool a b); simpl; split; congruence.
Qed.

Lemma sgn_Eq (q : Q) : JS.sgn q = Eq <-> (q == 0)%Q.
Proof.
  unfold JS.sgn, Qeq. simpl. rewrite Z.compare_eq_iff. lia.
Qed.

Lemma sgn_Lt (q : Q) : JS.sgn q = Lt <-> (q < 0)%Q.
Proof.
  unfold JS.sgn, Qlt. simpl. rewrite Z.compare_lt_iff. lia.
Qed.

Lemma sgn_Gt (q : Q) : JS.sgn q = Gt <-> (0 < q)%Q.
Proof.
  unfold JS.sgn, Qlt. simpl. rewrite Z.compare_gt_iff. lia.
Qed.

(** Division of finite numbers by a non-zero divisor is the rational
    quotient. *)
Lemma div_Fin (a b : Q) : ~ (b == 0)%Q -> Fin a / Fin b = Fin (a / b)%Q.
Proof.
  intro Hb. unfold JS.div.
  destruct (JS.sgn b) eqn:E; try reflexivity.
  apply sgn_Eq in E. contradiction.
Qed.

Lemma min_l (x y : number) : (x <=? y) = true -> JS.min x y = x.
Proof. intro H. destruct x, y; simpl in *; try congruence; now rewrite H. Qed.

Lemma max_l (x y : number) : (x >=? y) = true -> JS.max x y = x.
Proof.
  unfold JS.ge. intro H.
  destruct x, y; simpl in *; try congruence; now rewrite H.
Qed.

Ltac sgn_cases :=
  repeat match goal with
         | |- context [JS.sgn ?q] => destruct (JS.sgn q) eqn:?
         end;
  repeat match goal with
         | H : JS.sgn _ = Eq |- _ => apply sgn_Eq in H
         | H : JS.sgn _ = Lt |- _ => apply sgn_Lt in H
         | H : JS.sgn _ = Gt |- _ => apply sgn_Gt in H
         end.

Ltac to_Q :=
  repeat match goal with
         | H : Qle_bool _ _ = true |- _ => apply Qle_bool_iff in H
         | H : Qle_bool _ _ = false |- _ => apply Qle_bool_false in H
         | H : JS.Qlt_bool _ _ = true |- _ => apply Qlt_bool_iff in H
         | H : JS.Qlt_bool _ _ = false |- _ => apply Qlt_bool_false in H
         | |- Qle_bool _ _ = true => apply Qle_bool_iff
         | |- Qle_bool _ _ = false => apply Qle_bool_false
         | |- JS.Qlt_bool _ _ = true => apply Qlt_bool_iff
         | |- JS.Qlt_bool _ _ = false => apply Qlt_bool_false
         end.

(** With a non-negative price and a non-negative tolerance the price never
    lies beyond its own slippage bound. *)
Lemma slippage_bound_buy (c ms : number) :
  (Fin 0 <=? c) = true -> (Fin 0 <=? ms) = true ->
  (c >? c * (Fin 1 + ms)) = false.
Proof.
  unfold JS.gt.
  destruct c as [| | |c], ms as [| | |ms]; simpl; try congruence; intros Hc Hms;
    sgn_cases; simpl; try reflexivity; to_Q; try lra; try nra.
Qed.

Lemma slippage_bound_sell (c ms : number) :
  (Fin 0 <=? c) = true -> (Fin 0 <=? ms) = true ->
  (c <? c * (Fin 1 - ms)) = false.
Proof.
  destruct c as [| | |c], ms as [| | |ms]; simpl; try congruence; intros Hc Hms;
    sgn_cases; simpl; try reflexivity; to_Q; try lra; try nra.
Qed.


(** ** Tables *)

Section Tables.

Context {A : Type}.
Variable key : A -> bool.

Lemma find_map_hit (g : A -> A) (l : list A) (x : A) :
  (forall y, key (g y) = key y) ->
  find key l = Some x -> find key (map g l) = Some (g x).
Proof.
  intros Hg. induction l as [|a l IH]; simpl; [discriminate|].
  rewrite Hg. destruct (key a); intro H.
  - now inversion H.
  - now apply IH.
Qed.

Lemma find_map_miss (g : A -> A) (l : list A) :
  (forall y, key (g y) = key y) ->
  find key l = None -> find key (map g l) = None.
Proof.
  intros Hg. induction l as [|a l IH]; simpl; [reflexivity|].
  rewrite Hg. destruct (key a); [discriminate|exact IH].
Qed.

Lemma find_snoc_miss (l : list A) (x : A) :
  find key l = None -> find key (l ++ [x]) = if key x then Some x else None.
Proof.
  induction l as [|a l IH]; simpl; [reflexivity|].
  destruct (key a); [discriminate|exact IH].
Qed.

Lemma find_hit_key (l : list A) (x : A) : find key l = Some x -> key x = true.
Proof. intro H. now apply find_some in H. Qed.

End Tables.

(** ** The success path of the handler *)

Lemma executionParameters_true (v : InsertOrder) (c e : number) :
  executionParameters v c = inr (true, e) -> e = c.
Proof.
  unfold executionParameters.
  destruct (type v).
  - repeat match goal with
           | |- context [if ?b then _ else _] => destruct b
           end; intro H; inversion H; reflexivity.
  - destruct (side v); intro H; inversion H; subst.
    + now apply min_l.
    + now apply max_l.
Qed.

Lemma postOrders_executed (st st' : Storage) (v : InsertOrder)
    (o : Order) (t : option Trade) (p : option number) :
  postOrders st v = (Created o t true p, st') ->
  exists m ub,
    getMarket st (marketId v) = Some m /\
    getUserBalance st (userId v) = Some ub /\
    let c := quote m (outcome v) in
    let sh := amount v / c in
    let st1 := snd (createOrder st (with_shares v sh)) in
    p = Some c /\
    o = with_status (fst (createOrder st (with_shares v sh))) filled /\
    t = Some (fst (createTrade st1 (tradeOf (nextId st) v c))) /\
    st' = settledStorage st v ub c
            (getPosition st (userId v) (marketId v) (outcome v)) /\
    (side v = buy -> (b_balance ub <? amount v) = false) /\
    (side v = sell ->
     exists pos,
       getPosition st (userId v) (marketId v) (outcome v) = Some pos /\
       (p_shares pos <? sh) = false).
Proof.
  unfold postOrders. intro H.
  destruct (getMarket st (marketId v)) as [m|] eqn:Hm; [|discriminate].
  destruct (getUserBalance st (userId v)) as [ub|] eqn:Hub; [|discriminate].
  exists m, ub. split; [reflexivity|]. split; [reflexivity|].
  fold (quote m (outcome v)) in H.
  set (c := quote m (outcome v)) in *.
  destruct (side_eqb (side v) buy && (b_balance ub <? amount v)) eqn:Hbal;
    [discriminate|].
  match type of H with
  | (if ?b then _ else _) = _ => destruct b eqn:Hpre; [discriminate|]
  end.
  destruct (executionParameters v c) as [k|[canExecute e]] eqn:Hexec;
    [discriminate|].
  destruct canExecute; [|discriminate].
  apply executionParameters_true in Hexec. subst e.
  assert (Hbuy : side v = buy -> (b_balance ub <? amount v) = false).
  { intro Hs. rewrite Hs in Hbal. exact Hbal. }
  assert (Hsell : side v = sell ->
                  exists pos,
                    getPosition st (userId v) (marketId v) (outcome v) = Some pos /\
                    (p_shares pos <? amount v / c) = false).
  { intro Hs. rewrite Hs in Hpre. simpl in Hpre.
    destruct (getPosition st (userId v) (marketId v) (outcome v)) as [pos|];
      [|discriminate].
    now exists pos. }
  cbv zeta in H.
  destruct (createOrder st (with_shares v (amount v / c)))
    as [order st1] eqn:Hco.
  unfold createOrder in Hco. injection Hco as Horder Hst1.
  repeat match type of H with
         | (if ?b then _ else _) = _ => destruct b; [discriminate|]
         end.
  cbv zeta. unfold settledStorage, tradeOf, balanceAfter.
  unfold createOrder.
  cbn [fst snd with_shares side userId marketId type outcome amount
       limitPrice maxSlippage minPrice maxPrice shares].
  destruct (side v) eqn:Hside.
  - destruct (createTrade st1 _) as [trade st2] eqn:Hct.
    unfold createTrade in Hct. injection Hct as Htrade Hst2.
    injection H as Ho Ht Hp Hst.
    subst. repeat split; try reflexivity; try (intro; discriminate); auto.
  - destruct (Hsell eq_refl) as [pos [Hpos Hlt]].
    assert (Hpos1 : getPosition st1 (userId v) (marketId v) (outcome v)
                    = Some pos) by (subst st1; exact Hpos).
    rewrite Hpos1, Hlt in H.
    destruct (createTrade st1 _) as [trade st2] eqn:Hct.
    unfold createTrade in Hct. injection Hct as Htrade Hst2.
    injection H as Ho Ht Hp Hst.
    rewrite Hpos.
    subst. repeat split; try reflexivity; try (intro; discriminate); auto.
    intros _. now exists pos.
Qed.

(** ** What each write leaves alone *)

Lemma updateMarketPrices_frame st mid oc sd A :
  positions (updateMarketPrices st mid oc sd A) = positions st /\
  orders (updateMarketPrices st mid oc sd A) = orders st /\
  trades (updateMarketPrices st mid oc sd A) = trades st /\
  userBalances (updateMarketPrices st mid oc sd A) = userBalances st /\
  nextId (updateMarketPrices st mid oc sd A) = nextId st.
Proof.
  unfold updateMarketPrices. destruct (getMarket st mid); repeat split.
Qed.

Lemma updateUserPosition_frame st uid mid oc sh pr A :
  markets (updateUserPosition st uid mid oc sh pr A) = markets st /\
  orders (updateUserPosition st uid mid oc sh pr A) = orders st /\
  trades (updateUserPosition st uid mid oc sh pr A) = trades st /\
  userBalances (updateUserPosition st uid mid oc sh pr A) = userBalances st.
Proof.
  unfold updateUserPosition. destruct (getPosition st uid mid oc); repeat split.
Qed.

Lemma reducePosition_frame st pos sh :
  markets (reducePosition st pos sh) = markets st /\
  orders (reducePosition st pos sh) = orders st /\
  trades (reducePosition st pos sh) = trades st /\
  userBalances (reducePosition st pos sh) = userBalances st /\
  nextId (reducePosition st pos sh) = nextId st.
Proof.
  unfold reducePosition. destruct (_ <=? _); repeat split.
Qed.


Lemma getPosition_ext st1 st2 uid mid oc :
  positions st1 = positions st2 ->
  getPosition st1 uid mid oc = getPosition st2 uid mid oc.
Proof. unfold getPosition. now intros ->. Qed.

Lemma getUserBalance_ext st1 st2 uid :
  userBalances st1 = userBalances st2 ->
  getUserBalance st1 uid = getUserBalance st2 uid.
Proof. unfold getUserBalance. now intros ->. Qed.




(** *** The tables of a settled order *)


Lemma settled_userBalances st v ub c pos :
  userBalances (settledStorage st v ub c pos)
  = userBalances (updateUserBalance st (userId v) (balanceAfter v ub)).
Proof.
  unfold settledStorage. cbn [userBalances updateOrder].
  rewrite (proj1 (proj2 (proj2 (proj2 (updateMarketPrices_frame _ _ _ _ _))))).
  destruct (side v).
  - now rewrite (proj2 (proj2 (proj2 (updateUserPosition_frame _ _ _ _ _ _ _)))).
  - destruct pos; [|reflexivity].
    now rewrite (proj1 (proj2 (proj2 (proj2 (reducePosition_frame _ _ _))))).
Qed.

Lemma settled_trades st v ub c pos :
  trades (settledStorage st v ub c pos)
  = trades st
    ++ [fst (createTrade (snd (createOrder st (with_shares v (amount v / c))))
                         (tradeOf (nextId st) v c))].
Proof.
  unfold settledStorage. cbn [trades updateOrder].
  rewrite (proj1 (proj2 (proj2 (updateMarketPrices_frame _ _ _ _ _)))).
  destruct (side v).
  - now rewrite (proj1 (proj2 (proj2 (updateUserPosition_frame _ _ _ _ _ _ _)))).
  - destruct pos; [|reflexivity].
    now rewrite (proj1 (proj2 (proj2 (reducePosition_frame _ _ _)))).
Qed.

Lemma settled_orders st v ub c pos :
  orders (settledStorage st v ub c pos)
  = orders (updateOrder (snd (createOrder st (with_shares v (amount v / c))))
                        (nextId st) filled (amount v / c) c).
Proof.
  unfold settledStorage. cbn [orders updateOrder].
  rewrite (proj1 (proj2 (updateMarketPrices_frame _ _ _ _ _))).
  destruct (side v).
  - now rewrite (proj1 (proj2 (updateUserPosition_frame _ _ _ _ _ _ _))).
  - destruct pos; [|reflexivity].
    now rewrite (proj1 (proj2 (reducePosition_frame _ _ _))).
Qed.

(** ** The pricing engine *)








Lemma sampleBuy_executed :
  exists o t p,
    postOrders sampleStorage sampleBuy = (Created o t true p, sampleStorage1).
Proof. do 3 eexists. reflexivity. Defined.

(** ** Claims on the pricing engine *)

(** The handler on the first sample: 100 buys 200 shares at 0.50, the
    balance drops to 900 and the market moves to 0.56 / 0.44 (impact
    0.01 + min(100 / 1000, 0.05) = 0.06) with a volume of 100. *)
Example sampleBuy_ledgers :
  exists m b pos,
    getMarket sampleStorage1 1%nat = Some m /\
    (m_yesPrice m, m_noPrice m, m_volume m)
    = (Fin (11200 # 20000), Fin (8800 # 20000), Fin 100) /\
    getUserBalance sampleStorage1 7%nat = Some b /\
    b_balance b = Fin 900 /\
    getPosition sampleStorage1 7%nat 1%nat yes = Some pos /\
    (p_shares pos, p_avgPrice pos, p_totalCost pos)
    = (Fin 200, Fin (1 # 2), Fin 100).
Proof. do 3 eexists. repeat split; reflexivity. Qed.






(** ** The failure paths of the handler *)

(** A failure other than a slippage failure answers before the first write;
    a slippage failure answers right after the order row has been
    inserted.  The second share check of the sell branch never fires: it
    repeats the first one on the same position and the same price. *)
Lemma postOrders_error (st st' : Storage) (v : InsertOrder)
    (s : nat) (k : ErrorKind) :
  postOrders st v = (Error s k, st') ->
  (k <> SlippageExceeded /\ st' = st) \/
  (k = SlippageExceeded /\
   exists m,
     getMarket st (marketId v) = Some m /\
     slippageBreached v (quote m (outcome v)) = true /\
     st' = snd (createOrder st
                  (with_shares v (amount v / quote m (outcome v))))).
Proof.
  unfold postOrders. intro H.
  destruct (getMarket st (marketId v)) as [m|] eqn:Hm;
    [|injection H as _ <- <-; left; split; [discriminate|reflexivity]].
  destruct (getUserBalance st (userId v)) as [ub|] eqn:Hub;
    [|injection H as _ <- <-; left; split; [discriminate|reflexivity]].
  fold (quote m (outcome v)) in H.
  set (c := quote m (outcome v)) in *.
  destruct (side_eqb (side v) buy && (b_balance ub <? amount v));
    [injection H as _ <- <-; left; split; [discriminate|reflexivity]|].
  match type of H with
  | (if ?b then _ else _) = _ =>
      destruct b eqn:Hpre;
        [injection H as _ <- <-; left; split; [discriminate|reflexivity]|]
  end.
  destruct (executionParameters v c) as [k0|[canExecute e]] eqn:Hexec.
  { injection H as _ <- <-. left. split; [|reflexivity].
    unfold executionParameters in Hexec.
    destruct (type v);
      [|destruct (side v); discriminate].
    repeat match type of Hexec with
           | (if ?b then _ else _) = _ => destruct b
           end;
      try discriminate; injection Hexec as <-; discriminate. }
  destruct canExecute; [|discriminate].
  apply executionParameters_true in Hexec. subst e.
  cbv zeta in H.
  destruct (createOrder st (with_shares v (amount v / c)))
    as [order st1] eqn:Hco.
  assert (Hst1 : st1 = snd (createOrder st (with_shares v (amount v / c))))
    by now rewrite Hco.
  unfold slippageBreached.
  destruct (side v) eqn:Hside; simpl side_eqb in H; cbv iota in H;
    rewrite ?andb_true_l, ?andb_false_l in H;
    repeat match type of H with
           | (if ?b then _ else _) = _ =>
               destruct b eqn:?;
                 [injection H as _ <- <-; right; split; [reflexivity|];
                  exists m; repeat split; assumption|]
           end.
  - destruct (createTrade st1 _) as [trade st2]. discriminate.
  - simpl in Hpre.
    assert (Hpos : getPosition st1 (userId v) (marketId v) (outcome v)
                   = getPosition st (userId v) (marketId v) (outcome v))
      by now rewrite Hst1.
    rewrite Hpos in H.
    destruct (getPosition st (userId v) (marketId v) (outcome v)) as [pos|];
      [|discriminate].
    rewrite Hpre in H.
    destruct (createTrade st1 _) as [trade st2]. discriminate.
Qed.

(** ** Claim on failures and ledgers *)

(** C1, as stated, fails: the slippage check runs after [createOrder], so
    the request [tightBuy] is refused with a slippage failure and still
    leaves an order row in a ledger that was empty. *)
Lemma C1_counterexample_slippage_after_createOrder :
  fst (postOrders sampleStorage tightBuy) = Error 400 SlippageExceeded /\
  orders sampleStorage = [] /\
  exists o,
    orders (snd (postOrders sampleStorage tightBuy)) = [o] /\
    o_status o = pending.
Proof.
  split; [reflexivity|]. split; [reflexivity|].
  eexists. split; reflexivity.
Qed.

(** C1, amended.  A failure of the balance check, of the share check, of the
    maximum or of the minimum price (as of a missing market or balance) is
    answered before any write and leaves every ledger as it was; a slippage
    failure leaves the Trade, Balance, Position and Market ledgers as they
    were.  In particular a sell for more shares than the position holds (or
    with no position) is refused for insufficient shares with no ledger
    touched. *)
Theorem C1_failures_and_ledgers (st : Storage) (v : InsertOrder) :
  (forall s k st',
     postOrders st v = (Error s k, st') ->
     (k <> SlippageExceeded -> st' = st) /\
     (k = SlippageExceeded ->
      markets st' = markets st /\
      positions st' = positions st /\
      trades st' = trades st /\
      userBalances st' = userBalances st)) /\
  (forall m ub,
     side v = sell ->
     getMarket st (marketId v) = Some m ->
     getUserBalance st (userId v) = Some ub ->
     match getPosition st (userId v) (marketId v) (outcome v) with
     | None => True
     | Some pos => (p_shares pos <? amount v / quote m (outcome v)) = true
     end ->
     postOrders st v = (Error 400 InsufficientShares, st)).
Proof.
  split.
  - intros s k st' H. apply postOrders_error in H.
    destruct H as [[Hk ->]|[-> [m [_ [_ ->]]]]]; split; intro Hk'.
    + reflexivity.
    + contradiction.
    + contradiction.
    + repeat split.
  - intros m ub Hside Hm Hub Hpos.
    unfold postOrders. rewrite Hm, Hub, Hside. simpl.
    fold (quote m (outcome v)).
    destruct (getPosition st (userId v) (marketId v) (outcome v)) as [pos|].
    + now rewrite Hpos.
    + reflexivity.
Qed.

Lemma C1_failures_and_ledgers_witness :
  postOrders sampleStorage nakedSell = (Error 400 InsufficientShares, sampleStorage)
  /\ (markets (snd (postOrders sampleStorage tightBuy)) = markets sampleStorage /\
      positions (snd (postOrders sampleStorage tightBuy)) = positions sampleStorage /\
      trades (snd (postOrders sampleStorage tightBuy)) = trades sampleStorage /\
      userBalances (snd (postOrders sampleStorage tightBuy))
      = userBalances sampleStorage).
Proof.
  split.
  - apply (proj2 (C1_failures_and_ledgers sampleStorage nakedSell)
             sampleMarket sampleBalance);
      reflexivity.
  - apply (proj1 (C1_failures_and_ledgers sampleStorage tightBuy)
             400%nat SlippageExceeded);
      reflexivity.
Defined.

(** ** The handler past its pre-checks *)

Lemma prechecks_balance st v m ub :
  prechecks st v m ub ->
  side_eqb (side v) buy && (b_balance ub <? amount v) = false.
Proof.
  intros [_ [_ [Hbuy _]]]. destruct (side v); [|reflexivity].
  simpl. now apply Hbuy.
Qed.

Lemma prechecks_shares st v m ub :
  prechecks st v m ub ->
  side_eqb (side v) sell
  && match getPosition st (userId v) (marketId v) (outcome v) with
     | None => true
     | Some existingPosition =>
         p_shares existingPosition <? amount v / quote m (outcome v)
     end = false.
Proof.
  intros [_ [_ [_ Hsell]]]. destruct (side v); [reflexivity|].
  destruct (Hsell eq_refl) as [pos [-> Hlt]]. exact Hlt.
Qed.

Ltac pass_prechecks H :=
  let Hb := fresh "Hb" in
  let Hs := fresh "Hs" in
  pose proof (prechecks_balance _ _ _ _ H) as Hb;
  pose proof (prechecks_shares _ _ _ _ H) as Hs;
  unfold postOrders;
  rewrite (proj1 H), (proj1 (proj2 H));
  match type of H with
  | prechecks _ ?v ?m _ => fold (quote m (outcome v))
  end;
  rewrite Hb, Hs.

(** The market branch refuses on a price bound: nothing is written. *)
Lemma postOrders_refused st v m ub k :
  prechecks st v m ub ->
  executionParameters v (quote m (outcome v)) = inl k ->
  postOrders st v = (Error 400 k, st).
Proof.
  intros H Hexec. pass_prechecks H. now rewrite Hexec.
Qed.

(** The order cannot execute: it is stored and stays pending. *)
Lemma postOrders_pending st v m ub e :
  prechecks st v m ub ->
  executionParameters v (quote m (outcome v)) = inr (false, e) ->
  postOrders st v
  = (Created (with_status (fst (createOrder st (with_shares v (amount v / e))))
                          pending)
             None false None,
     snd (createOrder st (with_shares v (amount v / e)))).
Proof.
  intros H Hexec. pass_prechecks H. now rewrite Hexec.
Qed.

(** The order executes: all five ledgers are written. *)
Lemma postOrders_filled st v m ub e :
  prechecks st v m ub ->
  executionParameters v (quote m (outcome v)) = inr (true, e) ->
  slippageBreached v (quote m (outcome v)) = false ->
  let c := quote m (outcome v) in
  let st1 := snd (createOrder st (with_shares v (amount v / c))) in
  postOrders st v
  = (Created (with_status (fst (createOrder st (with_shares v (amount v / c))))
                          filled)
             (Some (fst (createTrade st1 (tradeOf (nextId st) v c))))
             true (Some c),
     settledStorage st v ub c
                    (getPosition st (userId v) (marketId v) (outcome v))).
Proof.
  intros H Hexec Hslip. cbv zeta.
  pose proof (executionParameters_true _ _ _ Hexec) as ->.
  pass_prechecks H. rewrite Hexec. cbv zeta.
  unfold slippageBreached in Hslip.
  unfold settledStorage, tradeOf, balanceAfter, createOrder.
  cbn [fst snd with_shares side userId marketId type outcome amount
       limitPrice maxSlippage minPrice maxPrice shares o_id].
  destruct H as [_ [_ [_ Hsell]]].
  destruct (side v) eqn:Hside; simpl side_eqb; cbv iota;
    rewrite ?andb_true_l, ?andb_false_l, Hslip.
  - reflexivity.
  - destruct (Hsell eq_refl) as [pos [Hpos Hlt]].
    unfold getPosition in *. cbn [positions]. rewrite Hpos, Hlt.
    reflexivity.
Qed.

(** ** Claims on the execution decision *)

Lemma sample_prechecks (v : InsertOrder) :
  userId v = 7%nat -> marketId v = 1%nat -> side v = buy ->
  (Fin 1000 <? amount v) = false ->
  prechecks sampleStorage v sampleMarket sampleBalance.
Proof.
  intros Hu Hm Hs Ha. unfold prechecks. rewrite Hu, Hm, Hs.
  split; [reflexivity|]. split; [reflexivity|].
  split; [intros _; exact Ha|intro H; discriminate H].
Defined.



(** C7, as stated, fails for limit orders: [highLimitBuy] is a buy with a
    maximum price of 0.40, it executes at 0.50 and no price bound refuses
    it. *)
Lemma C7_counterexample_limit_order_above_maxPrice :
  type highLimitBuy = ty_limit /\
  side highLimitBuy = buy /\
  maxPrice highLimitBuy = Some (Fin (4 # 10)) /\
  (Fin (1 # 2) >? Fin (4 # 10)) = true /\
  exists o t st',
    postOrders sampleStorage highLimitBuy
    = (Created o (Some t) true (Some (Fin (1 # 2))), st').
Proof.
  repeat split. do 3 eexists. reflexivity.
Qed.

(** C7, amended.  For every market order (past the balance or share check),
    with the quoted price as execution price: a maximum price below the
    execution price refuses the request (price above maximum); otherwise a
    minimum price above the execution price refuses it (price below
    minimum).  Both tests run on buys and sells alike, in this order,
    inside the market-order branch and before any write. *)
Theorem C7_market_order_price_bounds
    (st : Storage) (v : InsertOrder) (m : Market) (ub : UserBalance) :
  type v = ty_market ->
  prechecks st v m ub ->
  let executionPrice := quote m (outcome v) in
  (forall mx,
     maxPrice v = Some mx -> (executionPrice >? mx) = true ->
     postOrders st v = (Error 400 PriceAboveMax, st)) /\
  (forall mn,
     minPrice v = Some mn -> (executionPrice <? mn) = true ->
     match maxPrice v with
     | Some mx => (executionPrice >? mx) = false
     | None => True
     end ->
     postOrders st v = (Error 400 PriceBelowMin, st)).
Proof.
  intros Hty Hpre executionPrice. split.
  - intros mx Hmx Hgt.
    apply (postOrders_refused st v m ub _ Hpre).
    unfold executionParameters. rewrite Hty, Hmx.
    fold executionPrice. now rewrite Hgt.
  - intros mn Hmn Hlt Hmax.
    apply (postOrders_refused st v m ub _ Hpre).
    unfold executionParameters. rewrite Hty, Hmn.
    fold executionPrice. rewrite Hlt.
    destruct (maxPrice v); [now rewrite Hmax|reflexivity].
Qed.

Lemma C7_market_order_price_bounds_witness :
  postOrders sampleStorage cappedBuy = (Error 400 PriceAboveMax, sampleStorage).
Proof.
  apply (proj1 (C7_market_order_price_bounds sampleStorage cappedBuy
                  sampleMarket sampleBalance eq_refl
                  (sample_prechecks cappedBuy eq_refl eq_refl eq_refl eq_refl))
           (Fin (4 # 10)));
    reflexivity.
Defined.

(** C8 on the code.  A limit order without a limit price is not refused:
    [parseFloat] of the missing field is [NaN], every comparison with it is
    false, so the order cannot execute and is stored as a pending order
    whose share count is [NaN]; the answer is the 201 of a resting limit
    order. *)
Theorem C8_limit_order_without_limitPrice_is_stored
    (st : Storage) (v : InsertOrder) (m : Market) (ub : UserBalance) :
  type v = ty_limit ->
  limitPrice v = None ->
  prechecks st v m ub ->
  exists o,
    postOrders st v
    = (Created o None false None,
       mkStorage (markets st) (positions st) (orders st ++ [o]) (trades st)
                 (userBalances st) (S (nextId st))) /\
    o_status o = pending /\ o_limitPrice o = None /\ o_shares o = NaN.
Proof.
  intros Hty Hlim Hpre.
  assert (Hexec : executionParameters v (quote m (outcome v)) = inr (false, NaN)).
  { unfold executionParameters. rewrite Hty, Hlim. simpl.
    unfold JS.ge. destruct (side v), (quote m (outcome v)); reflexivity. }
  rewrite (postOrders_pending st v m ub NaN Hpre Hexec).
  eexists. split; [reflexivity|]. repeat split.
  - simpl. exact Hlim.
  - simpl. now destruct (amount v).
Qed.

Lemma C8_limit_order_without_limitPrice_is_stored_witness :
  exists o,
    postOrders sampleStorage noLimitBuy
    = (Created o None false None,
       mkStorage (markets sampleStorage) (positions sampleStorage)
                 (orders sampleStorage ++ [o]) (trades sampleStorage)
                 (userBalances sampleStorage) (S (nextId sampleStorage))) /\
    o_status o = pending /\ o_limitPrice o = None /\ o_shares o = NaN.
Proof.
  apply (C8_limit_order_without_limitPrice_is_stored sampleStorage noLimitBuy
           sampleMarket sampleBalance eq_refl eq_refl
           (sample_prechecks noLimitBuy eq_refl eq_refl eq_refl eq_refl)).
Defined.

(** ** Claim on slippage *)

Lemma slippage_respected (v : InsertOrder) (c : number) :
  (Fin 0 <=? c) = true ->
  (Fin 0 <=? or_else (maxSlippage v) (Fin (5 # 100))) = true ->
  slippageBreached v c = false.
Proof.
  intros Hc Hms. unfold slippageBreached. destruct (side v).
  - now apply slippage_bound_buy.
  - now apply slippage_bound_sell.
Qed.



(** ** Claim on the cash balance and the trading fee *)

Lemma getMarket_withTradingFee f st id :
  getMarket (withTradingFee f st) id = option_map (feeOf f) (getMarket st id).
Proof.
  unfold getMarket. simpl.
  destruct (find (fun m => (m_id m =? id)%nat) (markets st)) as [m|] eqn:E.
  - now rewrite (find_map_hit _ (feeOf f) _ m).
  - now rewrite find_map_miss.
Qed.

Lemma updateMarketPrices_withTradingFee f st mid oc sd A :
  updateMarketPrices (withTradingFee f st) mid oc sd A
  = withTradingFee f (updateMarketPrices st mid oc sd A).
Proof.
  unfold updateMarketPrices. rewrite getMarket_withTradingFee.
  destruct (getMarket st mid) as [m|]; [|reflexivity].
  unfold updateMarket, withTradingFee. simpl. rewrite !map_map.
  f_equal. apply map_ext. intro r. unfold feeOf. simpl.
  now destruct (m_id r =? mid)%nat.
Qed.

Lemma updateUserPosition_withTradingFee f st uid mid oc sh pr A :
  updateUserPosition (withTradingFee f st) uid mid oc sh pr A
  = withTradingFee f (updateUserPosition st uid mid oc sh pr A).
Proof.
  unfold updateUserPosition.
  change (getPosition (withTradingFee f st) uid mid oc)
    with (getPosition st uid mid oc).
  now destruct (getPosition st uid mid oc).
Qed.

Lemma reducePosition_withTradingFee f st pos sh :
  reducePosition (withTradingFee f st) pos sh
  = withTradingFee f (reducePosition st pos sh).
Proof. unfold reducePosition. now destruct (_ <=? _). Qed.

(** The handler never reads the trading fee: rewriting the fees of the
    ledger changes neither the answer nor anything else it writes. *)
Lemma postOrders_withTradingFee f st v :
  postOrders (withTradingFee f st) v
  = (fst (postOrders st v), withTradingFee f (snd (postOrders st v))).
Proof.
  unfold postOrders. rewrite getMarket_withTradingFee.
  change (getUserBalance (withTradingFee f st) (userId v))
    with (getUserBalance st (userId v)).
  change (getPosition (withTradingFee f st)) with (getPosition st).
  destruct (getMarket st (marketId v)) as [m|]; [|reflexivity].
  cbn [option_map feeOf m_yesPrice m_noPrice].
  destruct (getUserBalance st (userId v)) as [ub|]; [|reflexivity].
  fold (quote m (outcome v)). set (c := quote m (outcome v)).
  destruct (side_eqb (side v) buy && (b_balance ub <? amount v));
    [reflexivity|].
  match goal with
  | |- (if ?b then _ else _) = _ => destruct b; [reflexivity|]
  end.
  destruct (executionParameters v c) as [k|[canExecute e]]; [reflexivity|].
  change (createOrder (withTradingFee f st) (with_shares v (amount v / e)))
    with (fst (createOrder st (with_shares v (amount v / e))),
          withTradingFee f (snd (createOrder st (with_shares v (amount v / e))))).
  destruct (createOrder st (with_shares v (amount v / e))) as [order st1].
  cbn [fst snd]. cbv zeta.
  destruct canExecute; [|reflexivity].
  repeat match goal with
         | |- (if ?b then _ else _) = _ => destruct b; [reflexivity|]
         end.
  destruct (side v).
  - match goal with
    | |- context [createTrade (withTradingFee f st1) ?t] =>
        change (createTrade (withTradingFee f st1) t)
          with (fst (createTrade st1 t), withTradingFee f (snd (createTrade st1 t)));
        destruct (createTrade st1 t) as [trade st2]
    end.
    cbn [fst snd].
    change (updateUserBalance (withTradingFee f st2))
      with (fun uid b => withTradingFee f (updateUserBalance st2 uid b)).
    cbv beta.
    rewrite updateUserPosition_withTradingFee, updateMarketPrices_withTradingFee.
    reflexivity.
  - change (getPosition (withTradingFee f st1)) with (getPosition st1).
    destruct (getPosition st1 (userId v) (marketId v) (outcome v)) as [pos|];
      [|reflexivity].
    destruct (p_shares pos <? amount v / e); [reflexivity|].
    match goal with
    | |- context [createTrade (withTradingFee f st1) ?t] =>
        change (createTrade (withTradingFee f st1) t)
          with (fst (createTrade st1 t), withTradingFee f (snd (createTrade st1 t)));
        destruct (createTrade st1 t) as [trade st2]
    end.
    cbn [fst snd].
    change (updateUserBalance (withTradingFee f st2))
      with (fun uid b => withTradingFee f (updateUserBalance st2 uid b)).
    cbv beta.
    rewrite reducePosition_withTradingFee, updateMarketPrices_withTradingFee.
    reflexivity.
Qed.

Lemma getUserBalance_updateUserBalance st uid b ub :
  getUserBalance st uid = Some ub ->
  getUserBalance (updateUserBalance st uid b) uid
  = Some (mkUserBalance (b_id ub) (b_userId ub) b).
Proof.
  unfold getUserBalance, updateUserBalance. simpl. intro H.
  rewrite (find_map_hit _ _ _ ub); [| |exact H].
  - apply find_hit_key in H. cbv beta in H. now rewrite H.
  - intro y. cbv beta. destruct (b_userId y =? uid)%nat eqn:E; exact E.
Qed.

Lemma getUserBalance_updateUserBalance_other st uid uid' b :
  uid' <> uid ->
  getUserBalance (updateUserBalance st uid b) uid' = getUserBalance st uid'.
Proof.
  unfold getUserBalance, updateUserBalance. simpl. intro Hne.
  assert (Hkey : forall y,
             (b_userId (if (b_userId y =? uid)%nat
                        then mkUserBalance (b_id y) (b_userId y) b
                        else y) =? uid')%nat
             = (b_userId y =? uid')%nat).
  { intro y. now destruct (b_userId y =? uid)%nat. }
  destruct (find (fun r => (b_userId r =? uid')%nat) (userBalances st))
    as [x|] eqn:E.
  - rewrite (find_map_hit _ _ _ x Hkey E).
    apply find_hit_key in E. cbv beta in E. apply Nat.eqb_eq in E.
    destruct (b_userId x =? uid)%nat eqn:E'; [|reflexivity].
    apply Nat.eqb_eq in E'. congruence.
  - now rewrite (find_map_miss _ _ _ Hkey E).
Qed.

(** C10.  For every executed order the user's cash balance moves by exactly
    the requested amount (down on a buy, up on a sell) and nobody else's
    balance moves; the market's [tradingFee] is never read: with the fees
    of the ledger rewritten in any way the same request gets the same
    answer and writes the same rows, so no fee is charged on any trade. *)
Theorem C10_balance_moves_by_amount_without_fee
    (st st' : Storage) (v : InsertOrder) (o : Order) (t : option Trade)
    (p : option number) (ub : UserBalance) :
  postOrders st v = (Created o t true p, st') ->
  getUserBalance st (userId v) = Some ub ->
  (exists ub',
     getUserBalance st' (userId v) = Some ub' /\
     b_balance ub' = match side v with
                     | buy => b_balance ub - amount v
                     | sell => b_balance ub + amount v
                     end) /\
  (forall uid, uid <> userId v ->
               getUserBalance st' uid = getUserBalance st uid) /\
  (forall f,
     postOrders (withTradingFee f st) v
     = (Created o t true p, withTradingFee f st')).
Proof.
  intros H Hub.
  pose proof (postOrders_executed _ _ _ _ _ _ H) as Hx.
  destruct Hx as [m [ub0 [_ [Hub0 Hx]]]]. cbv zeta in Hx.
  destruct Hx as [_ [_ [_ [Hst _]]]].
  rewrite Hub in Hub0. injection Hub0 as <-.
  assert (Hbal : userBalances st'
                 = userBalances (updateUserBalance st (userId v)
                                                   (balanceAfter v ub)))
    by (rewrite Hst; apply settled_userBalances).
  split; [|split].
  - eexists. split.
    + rewrite (getUserBalance_ext _ _ _ Hbal).
      apply (getUserBalance_updateUserBalance _ _ _ ub Hub).
    + unfold balanceAfter. reflexivity.
  - intros uid Hne. rewrite (getUserBalance_ext _ _ _ Hbal).
    now apply getUserBalance_updateUserBalance_other.
  - intro f. rewrite postOrders_withTradingFee. now rewrite H.
Qed.

Lemma C10_balance_moves_by_amount_without_fee_witness :
  (exists ub',
     getUserBalance sampleStorage1 7%nat = Some ub' /\
     b_balance ub' = Fin 1000 - Fin 100) /\
  (forall uid, uid <> 7%nat ->
               getUserBalance sampleStorage1 uid
               = getUserBalance sampleStorage uid) /\
  (forall f,
     exists o t p,
       postOrders (withTradingFee f sampleStorage) sampleBuy
       = (Created o t true p, withTradingFee f sampleStorage1)).
Proof.
  destruct sampleBuy_executed as [o [t [p H]]].
  destruct (C10_balance_moves_by_amount_without_fee
              sampleStorage sampleStorage1 sampleBuy o t p sampleBalance
              H eq_refl) as [H1 [H2 H3]].
  split; [exact H1|]. split; [exact H2|].
  intro f. exists o, t, p. apply H3.
Defined.

(** ** The position ledger *)

Lemma outcome_eqb_refl (oc : Outcome) : outcome_eqb oc oc = true.
Proof. now destruct oc. Qed.

Lemma getPosition_updatePosition st uid mid oc pos sh tc ap :
  getPosition st uid mid oc = Some pos ->
  getPosition (updatePosition st (p_id pos) sh tc ap) uid mid oc
  = Some (mkPosition (p_id pos) (p_userId pos) (p_marketId pos)
                     (p_outcome pos) sh ap tc).
Proof.
  unfold getPosition, updatePosition. cbn [positions]. intro H.
  rewrite (find_map_hit _ _ _ pos); [| |exact H].
  - now rewrite Nat.eqb_refl.
  - intro y. cbv beta. now destruct (p_id y =? p_id pos)%nat.
Qed.

Lemma getPosition_reducePosition st uid mid oc pos sh :
  getPosition st uid mid oc = Some pos ->
  getPosition (reducePosition st pos sh) uid mid oc
  = Some (reducedPosition pos sh).
Proof.
  intro H. unfold reducePosition, reducedPosition.
  destruct (p_shares pos - sh <=? Fin 0);
    now apply getPosition_updatePosition.
Qed.

Lemma getPosition_settled_sell st v ub c pos :
  side v = sell ->
  getPosition st (userId v) (marketId v) (outcome v) = Some pos ->
  getPosition (settledStorage st v ub c (Some pos))
              (userId v) (marketId v) (outcome v)
  = Some (reducedPosition pos (amount v / c)).
Proof.
  intros Hside Hpos. unfold settledStorage. rewrite Hside.
  erewrite getPosition_ext;
    [|cbn [positions updateOrder];
      apply (proj1 (updateMarketPrices_frame _ _ _ _ _))].
  now apply getPosition_reducePosition.
Qed.

Lemma getPosition_settled_buy st v ub c x :
  side v = buy ->
  getPosition (settledStorage st v ub c x)
              (userId v) (marketId v) (outcome v)
  = Some (increasedPosition st v c).
Proof.
  intros Hside. unfold settledStorage. rewrite Hside.
  erewrite getPosition_ext;
    [|cbn [positions updateOrder];
      apply (proj1 (updateMarketPrices_frame _ _ _ _ _))].
  unfold updateUserPosition, increasedPosition.
  match goal with
  | |- context [match getPosition ?s ?a ?b ?d with _ => _ end] =>
      change (getPosition s a b d) with (getPosition st a b d)
  end.
  destruct (getPosition st (userId v) (marketId v) (outcome v)) as [pos|] eqn:E.
  - now apply getPosition_updatePosition.
  - unfold getPosition in *. cbn [positions createPosition nextId snd
                                   createTrade createOrder updateUserBalance].
    rewrite (find_snoc_miss _ _ _ E). cbn [p_userId p_marketId p_outcome].
    now rewrite !Nat.eqb_refl, outcome_eqb_refl.
Qed.

(** ** Claims on shares and positions *)

(** The handler never reads the share count the caller sent. *)
Lemma postOrders_ignores_shares (st : Storage) (v : InsertOrder) (s : number) :
  postOrders st (with_shares v s) = postOrders st v.
Proof. destruct v. reflexivity. Qed.

Lemma sampleSell_executed :
  exists o t p,
    postOrders sampleStorage1 sampleSell = (Created o t true p, sampleStorage2).
Proof. do 3 eexists. reflexivity. Defined.

(** C4.  For every executed order the share count on the order (in the
    answer and in the ledger, where it is also the filled count), on the
    trade and in the move of the position is [amount / executionPrice] as
    the server computes it, and a request that differs only in the share
    count the caller sent gets the same answer and leaves the same
    ledgers. *)
Theorem C4_shares_are_server_computed
    (st st' : Storage) (v : InsertOrder) (o : Order) (t : option Trade)
    (p : option number) :
  postOrders st v = (Created o t true p, st') ->
  exists price tr row pos',
    p = Some price /\ t = Some tr /\
    o_shares o = amount v / price /\
    t_shares tr = amount v / price /\
    trades st' = trades st ++ [tr] /\
    In row (orders st') /\ o_id row = o_id o /\
    o_shares row = amount v / price /\
    o_filledShares row = amount v / price /\
    getPosition st' (userId v) (marketId v) (outcome v) = Some pos' /\
    sharesMovedBy (getPosition st (userId v) (marketId v) (outcome v)) pos'
                  (side v) (amount v / price) /\
    forall s, postOrders st (with_shares v s) = (Created o t true p, st').
Proof.
  intro H.
  pose proof (postOrders_executed _ _ _ _ _ _ H) as Hx.
  destruct Hx as [m [ub [_ [_ Hx]]]]. cbv zeta in Hx.
  destruct Hx as [Hp [Ho [Ht [Hst [_ Hsell]]]]].
  remember (quote m (outcome v)) as c eqn:Hc.
  exists c, (fst (createTrade (snd (createOrder st (with_shares v (amount v / c))))
                              (tradeOf (nextId st) v c))).
  exists (mkOrder (nextId st) (userId v) (marketId v) (type v) (side v)
                  (outcome v) (amount v) (limitPrice v)
                  (Some (or_else (maxSlippage v) (Fin (5 # 100))))
                  (minPrice v) (maxPrice v) (amount v / c) (amount v / c) (Some c) filled).
  assert (Hrow : In (mkOrder (nextId st) (userId v) (marketId v) (type v)
                             (side v) (outcome v) (amount v) (limitPrice v)
                             (Some (or_else (maxSlippage v) (Fin (5 # 100))))
                             (minPrice v) (maxPrice v) (amount v / c) (amount v / c) (Some c) filled)
                    (orders st')).
  { rewrite Hst, settled_orders.
    cbn [orders updateOrder createOrder snd].
    apply in_map_iff.
    exists (fst (createOrder st (with_shares v (amount v / c)))). split.
    - simpl. now rewrite Nat.eqb_refl.
    - apply in_or_app. right. now left. }
  destruct (side v) eqn:Hside.
  - exists (increasedPosition st v c).
    repeat split; try assumption.
    + now rewrite Ho.
    + unfold tradeOf. now rewrite Hside.
    + rewrite Hst. apply settled_trades.
    + now rewrite Ho.
    + rewrite Hst. now apply getPosition_settled_buy.
    + unfold sharesMovedBy, increasedPosition.
      now destruct (getPosition st (userId v) (marketId v) (outcome v)).
    + intro s. rewrite postOrders_ignores_shares. exact H.
  - destruct (Hsell eq_refl) as [pos [Hpos Hlt]].
    exists (reducedPosition pos (amount v / c)).
    repeat split; try assumption.
    + now rewrite Ho.
    + unfold tradeOf. now rewrite Hside.
    + rewrite Hst. apply settled_trades.
    + now rewrite Ho.
    + rewrite Hst, Hpos. now apply getPosition_settled_sell.
    + rewrite Hpos. unfold sharesMovedBy. intros s q Hs Hq.
      unfold reducedPosition. rewrite Hs, Hq in *. simpl in Hlt |- *.
      destruct (Qle_bool (s + - q) 0) eqn:E; to_Q; eexists;
        (split; [reflexivity|]); lra.
    + intro s. rewrite postOrders_ignores_shares. exact H.
Qed.

Lemma C4_shares_are_server_computed_witness :
  exists tr row pos',
    t_shares tr = Fin 200 /\
    trades sampleStorage1 = trades sampleStorage ++ [tr] /\
    In row (orders sampleStorage1) /\
    o_shares row = Fin 200 /\ o_filledShares row = Fin 200 /\
    getPosition sampleStorage1 7%nat 1%nat yes = Some pos' /\
    p_shares pos' = Fin 200 /\
    forall s,
      snd (postOrders sampleStorage (with_shares sampleBuy s)) = sampleStorage1.
Proof.
  destruct (C4_shares_are_server_computed sampleStorage sampleStorage1
              sampleBuy _ _ _ eq_refl)
    as [price [tr [row [pos' [H1 [_ [_ [H4 [H5 [H6 [_ [H8 [H9 [H10 [H11 H12]]]]]]]]]]]]]]].
  vm_compute in H1. injection H1 as <-.
  exists tr, row, pos'.
  split; [exact H4|]. split; [exact H5|]. split; [exact H6|].
  split; [exact H8|]. split; [exact H9|]. split; [exact H10|].
  split; [exact H11|].
  intro s. now rewrite H12.
Defined.



(** * Further properties of the routes *)

(** ** The three ways a request can end *)

(** An order that is answered as not executed was stored and nothing else
    was written. *)
Lemma postOrders_unexecuted (st st' : Storage) (v : InsertOrder)
    (o : Order) (t : option Trade) (p : option number) :
  postOrders st v = (Created o t false p, st') ->
  exists e,
    st' = snd (createOrder st (with_shares v (amount v / e))) /\
    o = fst (createOrder st (with_shares v (amount v / e))) /\
    t = None /\ p = None.
Proof.
  unfold postOrders. intro H.
  destruct (getMarket st (marketId v)) as [m|]; [|discriminate].
  destruct (getUserBalance st (userId v)) as [ub|]; [|discriminate].
  destruct (side_eqb (side v) buy && (b_balance ub <? amount v));
    [discriminate|].
  match type of H with
  | (if ?b then _ else _) = _ => destruct b; [discriminate|]
  end.
  match type of H with
  | match ?x with _ => _ end = _ =>
      destruct x as [k|[canExecute e]]; [discriminate|]
  end.
  cbv zeta in H.
  destruct (createOrder st (with_shares v (amount v / e)))
    as [order st1] eqn:Hco.
  destruct canExecute.
  - exfalso.
    destruct (side v); simpl side_eqb in H; cbv iota in H;
      rewrite ?andb_true_l, ?andb_false_l in H.
    + destruct (_ >? _); [discriminate|].
      destruct (createTrade st1 _). discriminate.
    + destruct (_ <? _); [discriminate|].
      destruct (getPosition st1 _ _ _); [|discriminate].
      destruct (_ <? _); [discriminate|].
      destruct (createTrade st1 _). discriminate.
  - injection H as <- <- <- <-. exists e. rewrite Hco.
    unfold createOrder in Hco. injection Hco as <- _.
    repeat split.
Qed.

(** Whatever the answer, the ledgers are left in one of three ways:
    untouched, longer by the order row only, or settled. *)
Lemma postOrders_cases (st : Storage) (v : InsertOrder) :
  snd (postOrders st v) = st \/
  (exists e, snd (postOrders st v)
             = snd (createOrder st (with_shares v (amount v / e)))) \/
  (exists m ub,
     getMarket st (marketId v) = Some m /\
     getUserBalance st (userId v) = Some ub /\
     snd (postOrders st v)
     = settledStorage st v ub (quote m (outcome v))
                      (getPosition st (userId v) (marketId v) (outcome v)) /\
     (side v = buy -> (b_balance ub <? amount v) = false) /\
     (side v = sell ->
      exists pos,
        getPosition st (userId v) (marketId v) (outcome v) = Some pos /\
        (p_shares pos <? amount v / quote m (outcome v)) = false)).
Proof.
  destruct (postOrders st v) as [r st'] eqn:H. cbn [snd].
  destruct r as [s k|o t [|] p].
  - apply postOrders_error in H.
    destruct H as [[_ ->]|[_ [m [_ [_ ->]]]]]; [now left|].
    right. left. now eexists.
  - apply postOrders_executed in H.
    destruct H as [m [ub [Hm [Hub H]]]]. cbv zeta in H.
    destruct H as [_ [_ [_ [Hst [Hbuy Hsell]]]]].
    right. right. exists m, ub. repeat split; assumption.
  - apply postOrders_unexecuted in H. destruct H as [e [-> _]].
    right. left. now exists e.
Qed.


(** ** Ledgers stay well formed *)




Lemma shares_bought (A c : Q) :
  (0 <= A)%Q -> (0 < c)%Q ->
  Fin A / Fin c = Fin (A / c) /\ (0 <= A / c)%Q.
Proof.
  intros HA Hc. split.
  - apply div_Fin. lra.
  - apply Qle_shift_div_l; lra.
Qed.















(** ** Orders and trades stay in step *)

Lemma map_if_below {A : Type} (key : A -> Id) (f : A -> A) (n : Id)
    (l : list A) :
  Forall (fun x => key x < n)%nat l ->
  map (fun x => if (key x =? n)%nat then f x else x) l = l.
Proof.
  induction 1 as [|x l Hx _ IH]; simpl; [reflexivity|].
  rewrite IH. destruct (key x =? n)%nat eqn:E; [|reflexivity].
  apply Nat.eqb_eq in E. lia.
Qed.

Lemma filter_none_below (n : Id) (l : list Trade) :
  Forall (fun t => exists id, tradeOrderId t = Some id /\ (id < n)%nat) l ->
  filter (fun t => id_is (tradeOrderId t) n) l = [].
Proof.
  induction 1 as [|t l [id [Ht Hid]] _ IH]; simpl; [reflexivity|].
  rewrite Ht, IH. simpl.
  destruct (id =? n)%nat eqn:E; [|reflexivity].
  apply Nat.eqb_eq in E. lia.
Qed.

Lemma nextId_settled st v ub c x :
  (S (nextId st) < nextId (settledStorage st v ub c x))%nat.
Proof.
  unfold settledStorage. cbn [nextId updateOrder].
  rewrite (proj2 (proj2 (proj2 (proj2 (updateMarketPrices_frame _ _ _ _ _))))).
  destruct (side v).
  - unfold updateUserPosition.
    destruct (getPosition _ _ _ _); simpl; lia.
  - destruct x as [pos|]; [|simpl; lia].
    rewrite (proj2 (proj2 (proj2 (proj2 (reducePosition_frame _ _ _))))).
    simpl. lia.
Qed.

Lemma tradeOrderId_tradeOf st1 n v c :
  tradeOrderId (fst (createTrade st1 (tradeOf n v c))) = Some n.
Proof. unfold tradeOf. now destruct (side v). Qed.

Lemma books_ok_stored (st : Storage) (o : InsertOrder) :
  books_ok st -> books_ok (snd (createOrder st o)).
Proof.
  intros [H1 [H2 [H3 H4]]]. unfold createOrder. cbn [snd].
  unfold books_ok, tradesOfOrder. cbn [orders trades nextId].
  split; [|split; [|split]].
  - apply Forall_app. split.
    + eapply Forall_impl; [|exact H1]. simpl. intros; lia.
    + constructor; [simpl; lia|constructor].
  - rewrite map_app. simpl.
    rewrite <- (rev_involutive (map o_id (orders st) ++ [nextId st])).
    apply NoDup_rev. rewrite rev_app_distr. simpl.
    constructor; [|now apply NoDup_rev].
    rewrite <- in_rev. intro Hin. apply in_map_iff in Hin.
    destruct Hin as [x [Hx Hin]].
    pose proof (proj1 (Forall_forall _ _) H1 x Hin) as Hlt. simpl in Hlt. lia.
  - eapply Forall_impl; [|exact H3]. simpl.
    intros t [id [Ht Hid]]. exists id. split; [exact Ht|lia].
  - apply Forall_app. split; [exact H4|].
    constructor; [|constructor]. cbn [o_status o_id].
    now apply filter_none_below.
Qed.

Lemma books_ok_settled (st : Storage) (v : InsertOrder) ub c x :
  books_ok st -> books_ok (settledStorage st v ub c x).
Proof.
  intros [H1 [H2 [H3 H4]]].
  pose proof (nextId_settled st v ub c x) as Hn.
  assert (Hord : orders (settledStorage st v ub c x)
                 = orders st
                   ++ [mkOrder (nextId st) (userId v) (marketId v) (type v)
                               (side v) (outcome v) (amount v) (limitPrice v)
                               (Some (or_else (maxSlippage v) (Fin (5 # 100))))
                               (minPrice v) (maxPrice v)
                               (amount v / c) (amount v / c) (Some c) filled]).
  { rewrite settled_orders. cbn [orders updateOrder createOrder snd].
    rewrite map_app.
    rewrite (map_if_below o_id _ (nextId st) (orders st) H1).
    simpl. now rewrite Nat.eqb_refl. }
  pose proof (settled_trades st v ub c x) as Htr.
  unfold books_ok, tradesOfOrder. rewrite Hord, Htr.
  split; [|split; [|split]].
  - apply Forall_app. split.
    + eapply Forall_impl; [|exact H1]. cbv beta. intros; lia.
    + constructor; [cbn [o_id]; lia|constructor].
  - rewrite map_app. simpl.
    rewrite <- (rev_involutive (map o_id (orders st) ++ [nextId st])).
    apply NoDup_rev. rewrite rev_app_distr. simpl.
    constructor; [|now apply NoDup_rev].
    rewrite <- in_rev. intro Hin. apply in_map_iff in Hin.
    destruct Hin as [y [Hy Hin]].
    pose proof (proj1 (Forall_forall _ _) H1 y Hin) as Hlt. cbv beta in Hlt. lia.
  - apply Forall_app. split.
    + eapply Forall_impl; [|exact H3]. cbv beta.
      intros t [id [Ht Hid]]. exists id. split; [exact Ht|lia].
    + constructor; [|constructor]. exists (nextId st).
      split; [apply tradeOrderId_tradeOf|lia].
  - apply Forall_app. split.
    + apply Forall_forall. intros o Ho.
      pose proof (proj1 (Forall_forall _ _) H4 o Ho) as Hold.
      pose proof (proj1 (Forall_forall _ _) H1 o Ho) as Hlt.
      cbv beta in Hold, Hlt. unfold tradesOfOrder in Hold.
      rewrite filter_app. cbn [filter]. rewrite tradeOrderId_tradeOf.
      cbn [id_is].
      assert (E : (nextId st =? o_id o)%nat = false)
        by (apply Nat.eqb_neq; lia).
      rewrite E, app_nil_r. exact Hold.
    + constructor; [|constructor]. cbn [o_status o_id o_filledShares o_shares].
      split; [reflexivity|].
      rewrite filter_app, (filter_none_below (nextId st) (trades st) H3).
      cbn [filter app]. rewrite tradeOrderId_tradeOf. cbn [id_is].
      now rewrite Nat.eqb_refl.
Qed.

(** Every order request keeps the books of orders and trades in step,
    whatever it asks for and however it is answered. *)
Theorem postOrders_keeps_books_ok (st : Storage) (v : InsertOrder) :
  books_ok st -> books_ok (snd (postOrders st v)).
Proof.
  intro H.
  destruct (postOrders_cases st v) as [->|[[e ->]|[m [ub [_ [_ [-> _]]]]]]].
  - exact H.
  - now apply books_ok_stored.
  - now apply books_ok_settled.
Qed.

Lemma postOrders_appends (st : Storage) (v : InsertOrder) :
  Forall (fun o => o_id o < nextId st)%nat (orders st) ->
  exists lo lt,
    orders (snd (postOrders st v)) = orders st ++ lo /\
    trades (snd (postOrders st v)) = trades st ++ lt /\
    (length lt <= length lo <= 1)%nat.
Proof.
  intro H1.
  destruct (postOrders_cases st v) as [->|[[e ->]|[m [ub [_ [_ [-> _]]]]]]].
  - exists [], []. rewrite !app_nil_r. simpl. repeat split; lia.
  - unfold createOrder. cbn [snd orders trades].
    eexists. exists [].
    split; [reflexivity|]. split; [now rewrite app_nil_r|simpl; lia].
  - do 2 eexists. split; [|split; [apply settled_trades|]].
    + rewrite settled_orders. cbn [orders updateOrder createOrder snd].
      rewrite map_app, (map_if_below o_id _ (nextId st) (orders st) H1).
      reflexivity.
    + simpl. lia.
Qed.

Lemma books_ok_bump (st st' : Storage) :
  orders st' = orders st -> trades st' = trades st ->
  (nextId st <= nextId st')%nat ->
  books_ok st -> books_ok st'.
Proof.
  intros Ho Ht Hn [H1 [H2 [H3 H4]]].
  unfold books_ok, tradesOfOrder in *. rewrite Ho, Ht.
  repeat split; try assumption.
  - eapply Forall_impl; [|exact H1]. cbv beta. intros; lia.
  - eapply Forall_impl; [|exact H3]. cbv beta.
    intros t [id [Hid Hlt]]. exists id. split; [exact Hid|lia].
Qed.

Lemma apiStep_keeps_books_ok (db : Database) (c : ApiCall) :
  books_ok (ledgers db) -> books_ok (ledgers (apiStep db c)).
Proof.
  intro H. destruct c as [v|id b|im|w n]; cbn [apiStep ledgers].
  - now apply postOrders_keeps_books_ok.
  - apply (books_ok_bump (ledgers db)); try exact H;
      unfold patchBalance; destruct b as [b|]; try reflexivity;
      destruct (b <? Fin 0); reflexivity.
  - apply (books_ok_bump (ledgers db)); try exact H; try reflexivity.
    simpl. lia.
  - unfold postUsers. destruct (getUserByWalletAddress db w); [exact H|].
    unfold createUser. destruct (_ || _); [exact H|].
    apply (books_ok_bump (ledgers db)); try exact H; try reflexivity.
    simpl. lia.
Qed.

Lemma apiStep_appends (db : Database) (c : ApiCall) :
  books_ok (ledgers db) ->
  exists lo lt,
    orders (ledgers (apiStep db c)) = orders (ledgers db) ++ lo /\
    trades (ledgers (apiStep db c)) = trades (ledgers db) ++ lt /\
    (length lt <= length lo <= 1)%nat.
Proof.
  intros [H1 _]. destruct c as [v|id b|im|w n]; cbn [apiStep ledgers].
  - now apply postOrders_appends.
  - exists [], []. rewrite !app_nil_r. unfold patchBalance.
    destruct b as [b|]; [destruct (b <? Fin 0)|]; simpl; repeat split; lia.
  - exists [], []. rewrite !app_nil_r. simpl. repeat split; lia.
  - exists [], []. rewrite !app_nil_r. unfold postUsers, createUser.
    destruct (getUserByWalletAddress db w); [simpl; repeat split; lia|].
    destruct (_ || _); simpl; repeat split; lia.
Qed.


Lemma emptyDatabase_books_ok : books_ok (ledgers emptyDatabase).
Proof. repeat split; constructor. Defined.


(** X3.  Orders and trades are only ever appended: across any sequence of calls
    the rows that were there stay as they were, in place.  In particular an
    order stored as pending is never filled later, whatever the price
    does. *)
Theorem api_appends_orders_and_trades (db : Database) (calls : list ApiCall) :
  books_ok (ledgers db) ->
  exists newOrders newTrades,
    orders (ledgers (fold_left apiStep calls db))
    = orders (ledgers db) ++ newOrders /\
    trades (ledgers (fold_left apiStep calls db))
    = trades (ledgers db) ++ newTrades /\
    (length newTrades <= length newOrders <= length calls)%nat.
Proof.
  revert db.
  induction calls as [|c cs IH]; intros db Hdb.
  - exists [], []. rewrite !app_nil_r. simpl. repeat split; lia.
  - simpl.
    destruct (IH (apiStep db c) (apiStep_keeps_books_ok db c Hdb))
      as [lo [lt [Ho [Ht Hlen]]]].
    destruct (apiStep_appends db c Hdb) as [lo0 [lt0 [Ho0 [Ht0 Hlen0]]]].
    exists (lo0 ++ lo), (lt0 ++ lt).
    rewrite Ho, Ht, Ho0, Ht0, !app_assoc, !length_app.
    repeat split; lia.
Qed.

Lemma api_appends_orders_and_trades_witness :
  exists newOrders newTrades,
    orders (ledgers (fold_left apiStep sampleCalls emptyDatabase))
    = [] ++ newOrders /\
    trades (ledgers (fold_left apiStep sampleCalls emptyDatabase))
    = [] ++ newTrades /\
    (length newTrades <= length newOrders <= 4)%nat.
Proof.
  apply (api_appends_orders_and_trades emptyDatabase sampleCalls).
  exact emptyDatabase_books_ok.
Defined.

(** ** The cost basis of a position *)



(** X5.  A buy books the position at weighted average cost.  The first buy opens
    it with the traded shares at the execution price and a cost of the
    amount; a later buy adds the amount to the cost and sets the average
    price to the new cost over the new shares, which (for a position whose
    cost basis is in order and a positive amount and price) lies between
    the old average price and the execution price. *)
Theorem executed_buy_books_average_cost
    (st st' : Storage) (v : InsertOrder) (o : Order) (t : option Trade)
    (p : option number) :
  postOrders st v = (Created o t true p, st') ->
  side v = buy ->
  exists price pos',
    p = Some price /\
    getPosition st' (userId v) (marketId v) (outcome v) = Some pos' /\
    match getPosition st (userId v) (marketId v) (outcome v) with
    | None =>
        p_shares pos' = amount v / price /\
        p_avgPrice pos' = price /\
        p_totalCost pos' = amount v
    | Some pos =>
        p_totalCost pos' = p_totalCost pos + amount v /\
        p_avgPrice pos' = p_totalCost pos' / p_shares pos' /\
        forall A c : Q,
          cost_basis_ok pos ->
          amount v = Fin A -> (0 < A)%Q ->
          price = Fin c -> (0 < c)%Q ->
          exists s a a' : Q,
            p_shares pos = Fin s /\ p_avgPrice pos = Fin a /\
            p_avgPrice pos' = Fin a' /\
            (a' * (s + A / c) == s * a + A)%Q /\
            (Qmin a c <= a' <= Qmax a c)%Q
    end.
Proof.
  intros H Hside.
  pose proof (postOrders_executed _ _ _ _ _ _ H) as Hx.
  destruct Hx as [m [ub [_ [_ Hx]]]]. cbv zeta in Hx.
  destruct Hx as [Hp [_ [_ [Hst _]]]].
  exists (quote m (outcome v)), (increasedPosition st v (quote m (outcome v))).
  split; [exact Hp|]. split.
  { rewrite Hst. now apply getPosition_settled_buy. }
  unfold increasedPosition.
  destruct (getPosition st (userId v) (marketId v) (outcome v)) as [pos|];
    [|now repeat split].
  cbn [p_shares p_avgPrice p_totalCost].
  split; [reflexivity|]. split; [reflexivity|].
  intros A c [s [a [t0 [Hs [Ha [Ht [Hs0 [Ha0 Hta]]]]]]]] HA HA0 Hc Hc0.
  rewrite Hs, Ht, HA, Hc.
  destruct (shares_bought A c (Qlt_le_weak _ _ HA0) Hc0) as [Hsh _].
  rewrite Hsh. cbn [JS.add].
  assert (Hw : (A / c * c == A)%Q) by (field; lra).
  assert (Hw0 : (0 < A / c)%Q) by (apply Qlt_shift_div_l; lra).
  assert (Hne : ~ (s + A / c == 0)%Q) by lra.
  rewrite (div_Fin _ _ Hne).
  exists s, a, ((t0 + A) / (s + A / c))%Q.
  split; [reflexivity|]. split; [exact Ha|]. split; [reflexivity|].
  split.
  - rewrite Hta. field. split; [lra|nra].
  - split.
    + apply Qle_shift_div_l; [lra|].
      destruct (Q.min_spec a c) as [[H1 H2]|[H1 H2]]; rewrite H2; nra.
    + apply Qle_shift_div_r; [lra|].
      destruct (Q.max_spec a c) as [[H1 H2]|[H1 H2]]; rewrite H2; nra.
Qed.

(** ** The sign of the amount is never checked *)

(** X6.  A market buy for a negative amount is not refused: with a balance that
    is not negative it passes the balance check, is filled at the quoted
    price, and the "debit" raises the balance by the size of the amount. *)
Theorem negative_buy_raises_balance
    (st : Storage) (v : InsertOrder) (m : Market) (ub : UserBalance)
    (A b : Q) :
  getMarket st (marketId v) = Some m ->
  getUserBalance st (userId v) = Some ub ->
  type v = ty_market -> side v = buy ->
  maxPrice v = None -> minPrice v = None ->
  (Fin 0 <=? quote m (outcome v)) = true ->
  (Fin 0 <=? or_else (maxSlippage v) (Fin (5 # 100))) = true ->
  amount v = Fin A -> (A < 0)%Q ->
  b_balance ub = Fin b -> (0 <= b)%Q ->
  exists o t st' ub',
    postOrders st v = (Created o (Some t) true (Some (quote m (outcome v))), st') /\
    t_amount t = Fin A /\
    getUserBalance st' (userId v) = Some ub' /\
    b_balance ub' = Fin (b - A) /\ (b < b - A)%Q.
Proof.
  intros Hm Hub Hty Hside Hmax Hmin Hq Hms HA HA0 Hb Hb0.
  assert (Hpre : prechecks st v m ub).
  { repeat split; try assumption.
    - intros _. rewrite Hb, HA. simpl. to_Q. lra.
    - intro Hs. rewrite Hside in Hs. discriminate. }
  assert (Hexec : executionParameters v (quote m (outcome v))
                  = inr (true, quote m (outcome v))).
  { unfold executionParameters. now rewrite Hty, Hmax, Hmin. }
  pose proof (postOrders_filled st v m ub _ Hpre Hexec
                (slippage_respected v _ Hq Hms)) as H.
  cbv zeta in H.
  do 3 eexists. exists (mkUserBalance (b_id ub) (b_userId ub) (Fin (b - A))).
  split; [exact H|]. split; [|split; [|split]].
  - unfold tradeOf. now rewrite Hside.
  - rewrite (getUserBalance_ext _ _ _ (settled_userBalances _ _ _ _ _)).
    rewrite (getUserBalance_updateUserBalance _ _ _ ub Hub).
    unfold balanceAfter. now rewrite Hside, Hb, HA.
  - reflexivity.
  - lra.
Qed.

(** ** The balance route *)

Lemma map_if_find_none {A : Type} (key : A -> bool) (g : A -> A) (l : list A) :
  find key l = None -> map (fun x => if key x then g x else x) l = l.
Proof.
  induction l as [|a l IH]; simpl; [reflexivity|].
  destruct (key a); [discriminate|]. intro H. now rewrite IH.
Qed.

(** X7.  [PATCH /api/users/:id/balance] with a value that is not negative
    answers with the row it reads back, which carries the new balance; it
    leaves every other user's balance alone, and for a user without a
    balance row it writes nothing and still answers 200 (with no row). *)
Theorem patchBalance_round_trip (st : Storage) (id : Id) (b : number) :
  (b <? Fin 0) = false ->
  exists st',
    patchBalance st id (Some b) = (BalanceJson (getUserBalance st' id), st') /\
    match getUserBalance st id with
    | Some ub =>
        getUserBalance st' id
        = Some (mkUserBalance (b_id ub) (b_userId ub) b)
    | None => st' = st
    end /\
    (forall uid, uid <> id -> getUserBalance st' uid = getUserBalance st uid).
Proof.
  intro Hb. exists (updateUserBalance st id b).
  split; [|split].
  - unfold patchBalance. now rewrite Hb.
  - destruct (getUserBalance st id) as [ub|] eqn:E.
    + now apply getUserBalance_updateUserBalance.
    + unfold updateUserBalance, getUserBalance in *.
      rewrite (map_if_find_none _ _ _ E). now destruct st.
  - intros uid Hne. now apply getUserBalance_updateUserBalance_other.
Qed.

(** X8.  [PATCH /api/users/:id/balance] never writes a negative balance:
    whatever the body, a balance row afterwards is a row from before or
    carries a value that is not below zero; a missing or negative value is
    answered 400 with nothing written. *)
Theorem patchBalance_never_negative (st : Storage) (id : Id)
    (balance : option number) :
  (forall row, In row (userBalances (snd (patchBalance st id balance))) ->
               In row (userBalances st) \/ (b_balance row <? Fin 0) = false) /\
  (fst (patchBalance st id balance) = InvalidBalance ->
   snd (patchBalance st id balance) = st).
Proof.
  unfold patchBalance. destruct balance as [b|]; [|split; [now left|reflexivity]].
  destruct (b <? Fin 0) eqn:E; [split; [now left|reflexivity]|].
  split; [|discriminate].
  cbn [snd userBalances updateUserBalance]. intros row Hin.
  apply in_map_iff in Hin. destruct Hin as [x [<- Hx]].
  destruct (b_userId x =? id)%nat; [now right|now left].
Qed.

(** ** Users *)

(** X9.  Signing in twice is signing in once: after a [POST /api/users] that did
    not fail, the wallet address finds a user, and a further
    [POST /api/users] with that address (whatever the user name) answers
    with that same user and writes nothing. *)
Theorem postUsers_idempotent (db : Database) (w : String.string)
    (n n' : option String.string) :
  fst (postUsers db w n) <> UserFailed ->
  exists u,
    (fst (postUsers db w n) = UserFound u \/
     fst (postUsers db w n) = UserCreated u) /\
    getUserByWalletAddress (snd (postUsers db w n)) w = Some u /\
    postUsers (snd (postUsers db w n)) w n'
    = (UserFound u, snd (postUsers db w n)).
Proof.
  destruct (postUsers db w n) as [r db'] eqn:H. cbn [fst snd].
  unfold postUsers in H.
  destruct (getUserByWalletAddress db w) as [u|] eqn:E.
  - injection H as <- <-. intros _. exists u.
    split; [now left|]. split; [exact E|].
    unfold postUsers. now rewrite E.
  - unfold createUser in H. destruct (_ || _).
    + injection H as <- <-. intro H. now elim H.
    + injection H as <- <-. intros _. eexists.
      split; [now right|].
      match goal with
      | |- ?f = Some ?x /\ _ => assert (Hfind : f = Some x)
      end.
      { unfold getUserByWalletAddress in *. cbn [users].
        rewrite (find_snoc_miss _ _ _ E). cbn [u_walletAddress text_is].
        now rewrite String.eqb_refl. }
      split; [exact Hfind|].
      unfold postUsers. now rewrite Hfind.
Qed.

(** X10.  A new user starts with 1000: when [POST /api/users] creates a user
    (whose key no balance row carries yet), the balance read for that user
    is the new row of 1000, and markets, positions, orders and trades are
    as before. *)
Theorem postUsers_opens_balance (db db' : Database) (w : String.string)
    (n : option String.string) (u : User) :
  postUsers db w n = (UserCreated u, db') ->
  getUserBalance (ledgers db) (nextId (ledgers db)) = None ->
  exists row,
    getUserBalance (ledgers db') (u_id u) = Some row /\
    b_balance row = Fin 1000 /\
    u_walletAddress u = Some w /\
    markets (ledgers db') = markets (ledgers db) /\
    positions (ledgers db') = positions (ledgers db) /\
    orders (ledgers db') = orders (ledgers db) /\
    trades (ledgers db') = trades (ledgers db).
Proof.
  unfold postUsers. intros H Hfresh.
  destruct (getUserByWalletAddress db w); [discriminate|].
  unfold createUser in H. destruct (_ || _); [discriminate|].
  injection H as <- <-.
  exists (mkUserBalance (S (nextId (ledgers db))) (nextId (ledgers db))
                        (Fin 1000)).
  cbn [ledgers u_id u_walletAddress].
  split; [|now repeat split].
  unfold getUserBalance in *. cbn [userBalances].
  rewrite (find_snoc_miss _ _ _ Hfresh). cbn [b_userId].
  now rewrite Nat.eqb_refl.
Qed.

(** ** Markets *)

Lemma getMarket_createMarket (st : Storage) (im : InsertMarket) :
  getMarket st (nextId st) = None ->
  getMarket (snd (createMarket st im)) (nextId st)
  = Some (fst (createMarket st im)).
Proof.
  intro H. unfold getMarket in *. cbn [snd fst createMarket markets].
  rewrite (find_snoc_miss _ _ _ H). cbn [m_id]. now rewrite Nat.eqb_refl.
Qed.

(** X11.  A market opens at 0.50 / 0.50 whatever the body asks for, and trades at
    once: on a market just created (under a key no market carries yet) a
    market buy within the user's balance is filled at 0.50 for
    [amount / 0.50] shares. *)
Theorem first_buy_on_new_market
    (st : Storage) (im : InsertMarket) (v : InsertOrder) (ub : UserBalance)
    (A b : Q) :
  getMarket st (nextId st) = None ->
  marketId v = nextId st ->
  getUserBalance st (userId v) = Some ub ->
  b_balance ub = Fin b -> amount v = Fin A -> (A <= b)%Q ->
  type v = ty_market -> side v = buy ->
  maxPrice v = None -> minPrice v = None ->
  (Fin 0 <=? or_else (maxSlippage v) (Fin (5 # 100))) = true ->
  exists o t st',
    postOrders (snd (createMarket st im)) v
    = (Created o (Some t) true (Some (Fin (1 # 2))), st') /\
    t_price t = Fin (1 # 2) /\
    t_shares t = Fin (A / (1 # 2)) /\
    o_status o = filled.
Proof.
  intros Hfresh Hmid Hub Hb HA HAb Hty Hside Hmax Hmin Hms.
  set (st1 := snd (createMarket st im)).
  set (m := fst (createMarket st im)).
  assert (Hq : quote m (outcome v) = Fin (1 # 2)) by now destruct (outcome v).
  assert (Hpre : prechecks st1 v m ub).
  { repeat split.
    - rewrite Hmid. now apply getMarket_createMarket.
    - exact Hub.
    - intros _. rewrite Hb, HA. simpl. to_Q. exact HAb.
    - intro Hs. rewrite Hside in Hs. discriminate. }
  assert (Hexec : executionParameters v (quote m (outcome v))
                  = inr (true, quote m (outcome v))).
  { unfold executionParameters. now rewrite Hty, Hmax, Hmin. }
  assert (Hslip : slippageBreached v (quote m (outcome v)) = false).
  { apply slippage_respected; [now rewrite Hq|exact Hms]. }
  pose proof (postOrders_filled st1 v m ub _ Hpre Hexec Hslip) as H.
  cbv zeta in H. rewrite Hq in H.
  do 3 eexists. split; [exact H|].
  unfold tradeOf. rewrite Hside, HA. repeat split.
Qed.

Lemma getMarket_withStatusAndLiquidity fs fl st id :
  getMarket (withStatusAndLiquidity fs fl st) id
  = option_map (relabelled fs fl) (getMarket st id).
Proof.
  unfold getMarket. simpl.
  destruct (find (fun m => (m_id m =? id)%nat) (markets st)) as [m|] eqn:E.
  - now rewrite (find_map_hit _ (relabelled fs fl) _ m).
  - now rewrite find_map_miss.
Qed.

Lemma updateMarketPrices_withStatusAndLiquidity fs fl st mid oc sd A :
  updateMarketPrices (withStatusAndLiquidity fs fl st) mid oc sd A
  = withStatusAndLiquidity fs fl (updateMarketPrices st mid oc sd A).
Proof.
  unfold updateMarketPrices. rewrite getMarket_withStatusAndLiquidity.
  destruct (getMarket st mid) as [m|]; [|reflexivity].
  unfold updateMarket, withStatusAndLiquidity. simpl. rewrite !map_map.
  f_equal. apply map_ext. intro r. unfold relabelled. simpl.
  now destruct (m_id r =? mid)%nat.
Qed.

Lemma updateUserPosition_withStatusAndLiquidity fs fl st uid mid oc sh pr A :
  updateUserPosition (withStatusAndLiquidity fs fl st) uid mid oc sh pr A
  = withStatusAndLiquidity fs fl (updateUserPosition st uid mid oc sh pr A).
Proof.
  unfold updateUserPosition.
  change (getPosition (withStatusAndLiquidity fs fl st) uid mid oc)
    with (getPosition st uid mid oc).
  now destruct (getPosition st uid mid oc).
Qed.

Lemma reducePosition_withStatusAndLiquidity fs fl st pos sh :
  reducePosition (withStatusAndLiquidity fs fl st) pos sh
  = withStatusAndLiquidity fs fl (reducePosition st pos sh).
Proof. unfold reducePosition. now destruct (_ <=? _). Qed.

(** X12.  The handler never looks at the status or the liquidity of a market: on
    ledgers that differ only there the same request gets the same answer
    and writes the same rows.  In particular an order on a resolved,
    disputed or cancelled market is served like one on an active market. *)
Theorem postOrders_ignores_status_and_liquidity
    (fs : MarketStatus -> MarketStatus) (fl : number -> number)
    (st : Storage) (v : InsertOrder) :
  postOrders (withStatusAndLiquidity fs fl st) v
  = (fst (postOrders st v),
     withStatusAndLiquidity fs fl (snd (postOrders st v))).
Proof.
  unfold postOrders. rewrite getMarket_withStatusAndLiquidity.
  change (getUserBalance (withStatusAndLiquidity fs fl st) (userId v))
    with (getUserBalance st (userId v)).
  change (getPosition (withStatusAndLiquidity fs fl st)) with (getPosition st).
  destruct (getMarket st (marketId v)) as [m|]; [|reflexivity].
  cbn [option_map relabelled m_yesPrice m_noPrice].
  destruct (getUserBalance st (userId v)) as [ub|]; [|reflexivity].
  fold (quote m (outcome v)). set (c := quote m (outcome v)).
  destruct (side_eqb (side v) buy && (b_balance ub <? amount v));
    [reflexivity|].
  match goal with
  | |- (if ?b then _ else _) = _ => destruct b; [reflexivity|]
  end.
  destruct (executionParameters v c) as [k|[canExecute e]]; [reflexivity|].
  change (createOrder (withStatusAndLiquidity fs fl st)
                      (with_shares v (amount v / e)))
    with (fst (createOrder st (with_shares v (amount v / e))),
          withStatusAndLiquidity fs fl
            (snd (createOrder st (with_shares v (amount v / e))))).
  destruct (createOrder st (with_shares v (amount v / e))) as [order st1].
  cbn [fst snd]. cbv zeta.
  destruct canExecute; [|reflexivity].
  destruct (side v); simpl side_eqb; cbv iota;
    rewrite ?andb_true_l, ?andb_false_l.
  - destruct (_ >? _); [reflexivity|].
    match goal with
    | |- context [createTrade (withStatusAndLiquidity fs fl st1) ?t] =>
        change (createTrade (withStatusAndLiquidity fs fl st1) t)
          with (fst (createTrade st1 t),
                withStatusAndLiquidity fs fl (snd (createTrade st1 t)));
        destruct (createTrade st1 t) as [trade st2]
    end.
    cbn [fst snd].
    change (updateUserBalance (withStatusAndLiquidity fs fl st2))
      with (fun uid b => withStatusAndLiquidity fs fl (updateUserBalance st2 uid b)).
    cbv beta.
    rewrite updateUserPosition_withStatusAndLiquidity,
            updateMarketPrices_withStatusAndLiquidity.
    reflexivity.
  - destruct (_ <? _); [reflexivity|].
    change (getPosition (withStatusAndLiquidity fs fl st1)) with (getPosition st1).
    destruct (getPosition st1 (userId v) (marketId v) (outcome v)) as [pos|];
      [|reflexivity].
    destruct (p_shares pos <? amount v / e); [reflexivity|].
    match goal with
    | |- context [createTrade (withStatusAndLiquidity fs fl st1) ?t] =>
        change (createTrade (withStatusAndLiquidity fs fl st1) t)
          with (fst (createTrade st1 t),
                withStatusAndLiquidity fs fl (snd (createTrade st1 t)));
        destruct (createTrade st1 t) as [trade st2]
    end.
    cbn [fst snd].
    change (updateUserBalance (withStatusAndLiquidity fs fl st2))
      with (fun uid b => withStatusAndLiquidity fs fl (updateUserBalance st2 uid b)).
    cbv beta.
    rewrite reducePosition_withStatusAndLiquidity,
            updateMarketPrices_withStatusAndLiquidity.
    reflexivity.
Qed.

(** ** Trade listings *)

(** X13.  After an executed order the new trade joins the market's trade listing;
    it joins the trade listing of the user only when the order was a buy:
    [getUserTrades] selects on [buyerId], so the trade of a sell shows in
    no user's listing. *)
Theorem executed_trade_listings
    (st st' : Storage) (v : InsertOrder) (o : Order) (tr : Trade)
    (p : option number) :
  postOrders st v = (Created o (Some tr) true p, st') ->
  (forall t, In t (getMarketTrades st' (marketId v)) <->
             In t (getMarketTrades st (marketId v)) \/ t = tr) /\
  (forall uid t,
     In t (getUserTrades st' uid) <->
     In t (getUserTrades st uid) \/
     (t = tr /\ side v = buy /\ uid = userId v)).
Proof.
  intro H.
  pose proof (postOrders_executed _ _ _ _ _ _ H) as Hx.
  destruct Hx as [m [ub [_ [_ Hx]]]]. cbv zeta in Hx.
  destruct Hx as [_ [_ [Ht [Hst _]]]].
  injection Ht as Ht.
  assert (Htr : trades st' = trades st ++ [tr])
    by (rewrite Hst, Ht; apply settled_trades).
  assert (Hmid : t_marketId tr = marketId v)
    by (rewrite Ht; unfold tradeOf; now destruct (side v)).
  assert (Hbuyer : t_buyerId tr
                   = match side v with buy => Some (userId v) | sell => None end)
    by (rewrite Ht; unfold tradeOf; now destruct (side v)).
  unfold getMarketTrades, getUserTrades. rewrite Htr. split.
  - intro t. rewrite !filter_In, in_app_iff. simpl. split.
    + intros [[Hin|[ <- |[]]] Hk]; [left; now split|now right].
    + intros [[Hin Hk]| ->]; [split; [now left|exact Hk]|].
      split; [right; now left|]. rewrite Hmid. apply Nat.eqb_refl.
  - intros uid t. rewrite !filter_In, in_app_iff. simpl. split.
    + intros [[Hin|[ <- |[]]] Hk]; [left; now split|]. right.
      rewrite Hbuyer in Hk. destruct (side v); [|discriminate].
      simpl in Hk. apply Nat.eqb_eq in Hk. now repeat split.
    + intros [[Hin Hk]|[ -> [Hs ->]]]; [split; [now left|exact Hk]|].
      split; [right; now left|]. rewrite Hbuyer, Hs. simpl.
      apply Nat.eqb_refl.
Qed.

(** ** A buy followed by a sell *)



(** ** The further properties at work on the samples *)


Lemma executed_buy_books_average_cost_witness :
  exists pos',
    getPosition sampleStorage1 7%nat 1%nat yes = Some pos' /\
    p_avgPrice pos' = Fin (1 # 2) /\
    p_totalCost pos' = Fin 100.
Proof.
  destruct (executed_buy_books_average_cost sampleStorage sampleStorage1
              sampleBuy _ _ _ eq_refl eq_refl)
    as [price [pos' [Hp [Hg Hm]]]].
  vm_compute in Hp. injection Hp as <-.
  change (getPosition sampleStorage (userId sampleBuy) (marketId sampleBuy)
                      (outcome sampleBuy))
    with (@None Position) in Hm.
  destruct Hm as [_ [Ha Ht]].
  exists pos'. split; [exact Hg|]. split; [exact Ha|exact Ht].
Defined.

Lemma negative_buy_raises_balance_witness :
  exists o t st' ub',
    postOrders sampleStorage negativeBuy
    = (Created o (Some t) true (Some (Fin (1 # 2))), st') /\
    t_amount t = Fin (- (100)) /\
    getUserBalance st' 7%nat = Some ub' /\
    b_balance ub' = Fin (1000 - - (100)) /\ (1000 < 1000 - - (100))%Q.
Proof.
  apply (negative_buy_raises_balance sampleStorage negativeBuy sampleMarket
           sampleBalance (- (100)) 1000);
    try reflexivity; discriminate.
Defined.

Lemma patchBalance_round_trip_witness :
  exists st',
    patchBalance sampleStorage 7%nat (Some (Fin 250))
    = (BalanceJson (getUserBalance st' 7%nat), st') /\
    getUserBalance st' 7%nat = Some (mkUserBalance 10%nat 7%nat (Fin 250)) /\
    (forall uid, uid <> 7%nat ->
                 getUserBalance st' uid = getUserBalance sampleStorage uid).
Proof.
  apply (patchBalance_round_trip sampleStorage 7%nat (Fin 250)).
  reflexivity.
Defined.

Lemma postUsers_idempotent_witness :
  exists u,
    (fst (postUsers emptyDatabase SampleText.sampleWallet None) = UserFound u \/
     fst (postUsers emptyDatabase SampleText.sampleWallet None) = UserCreated u) /\
    getUserByWalletAddress
      (snd (postUsers emptyDatabase SampleText.sampleWallet None))
      SampleText.sampleWallet = Some u /\
    postUsers (snd (postUsers emptyDatabase SampleText.sampleWallet None))
              SampleText.sampleWallet None
    = (UserFound u, snd (postUsers emptyDatabase SampleText.sampleWallet None)).
Proof.
  apply (postUsers_idempotent emptyDatabase SampleText.sampleWallet None None).
  discriminate.
Defined.

Lemma postUsers_opens_balance_witness :
  exists row,
    getUserBalance
      (ledgers (snd (postUsers emptyDatabase SampleText.sampleWallet None)))
      0%nat = Some row /\
    b_balance row = Fin 1000.
Proof.
  destruct (postUsers_opens_balance emptyDatabase
              (snd (postUsers emptyDatabase SampleText.sampleWallet None))
              SampleText.sampleWallet None
              (mkUser 0%nat (Some SampleText.sampleWallet) None)
              eq_refl eq_refl)
    as [row [H1 [H2 _]]].
  exists row. split; [exact H1|exact H2].
Defined.

Lemma first_buy_on_new_market_witness :
  exists o t st',
    postOrders (snd (createMarket sampleStorage (mkInsertMarket (Some resolved)
                                                   (Some (Fin 5)) None)))
               newMarketBuy
    = (Created o (Some t) true (Some (Fin (1 # 2))), st') /\
    t_price t = Fin (1 # 2) /\
    t_shares t = Fin (100 / (1 # 2)) /\
    o_status o = filled.
Proof.
  apply (first_buy_on_new_market sampleStorage _ newMarketBuy sampleBalance
           100 1000);
    try reflexivity; discriminate.
Defined.

Lemma executed_trade_listings_witness :
  exists tr,
    (forall t, In t (getMarketTrades sampleStorage1 1%nat) <->
               In t (getMarketTrades sampleStorage 1%nat) \/ t = tr) /\
    (forall uid t,
       In t (getUserTrades sampleStorage1 uid) <->
       In t (getUserTrades sampleStorage uid) \/
       (t = tr /\ buy = buy /\ uid = 7%nat)).
Proof.
  eexists.
  apply (executed_trade_listings sampleStorage sampleStorage1 sampleBuy
           _ _ _ eq_refl).
Defined.


(** ** The order in the answer *)

(** X15.  The order in the 201 answer of an executed request is the row as
    [createOrder] returned it with only the status overwritten: it reads
    filled, yet with [filledShares] 0 and no [avgFillPrice], while the row
    in the ledger carries the filled share count and the execution
    price. *)
Theorem executed_answer_order_is_stale
    (st st' : Storage) (v : InsertOrder) (o : Order) (t : option Trade)
    (p : option number) :
  postOrders st v = (Created o t true p, st') ->
  o_status o = filled /\
  o_filledShares o = Fin 0 /\
  o_avgFillPrice o = None /\
  exists row,
    In row (orders st') /\ o_id row = o_id o /\
    o_status row = filled /\
    o_filledShares row = o_shares o /\
    o_avgFillPrice row = p.
Proof.
  intro H.
  pose proof (postOrders_executed _ _ _ _ _ _ H) as Hx.
  destruct Hx as [m [ub [_ [_ Hx]]]]. cbv zeta in Hx.
  destruct Hx as [Hp [Ho [_ [Hst _]]]].
  rewrite Ho. repeat split.
  exists (mkOrder (nextId st) (userId v) (marketId v) (type v) (side v)
                  (outcome v) (amount v) (limitPrice v)
                  (Some (or_else (maxSlippage v) (Fin (5 # 100))))
                  (minPrice v) (maxPrice v)
                  (amount v / quote m (outcome v))
                  (amount v / quote m (outcome v))
                  (Some (quote m (outcome v))) filled).
  split; [|now repeat split].
  rewrite Hst, settled_orders. cbn [orders updateOrder createOrder snd].
  apply in_map_iff.
  exists (fst (createOrder st
                 (with_shares v (amount v / quote m (outcome v))))).
  split.
  - simpl. now rewrite Nat.eqb_refl.
  - apply in_or_app. right. now left.
Qed.

Lemma executed_answer_order_is_stale_witness :
  exists o row,
    fst (postOrders sampleStorage sampleBuy)
    = Created o (Some (fst (createTrade
                              (snd (createOrder sampleStorage
                                      (with_shares sampleBuy (Fin 200))))
                              (tradeOf 100%nat sampleBuy (Fin (1 # 2))))))
              true (Some (Fin (1 # 2))) /\
    o_status o = filled /\ o_filledShares o = Fin 0 /\
    In row (orders sampleStorage1) /\
    o_id row = o_id o /\ o_filledShares row = o_shares o.
Proof.
  eexists.
  destruct (executed_answer_order_is_stale sampleStorage sampleStorage1
              sampleBuy _ _ _ eq_refl)
    as [H1 [H2 [_ [row [H4 [H5 [_ [H7 _]]]]]]]].
  exists row. split; [reflexivity|].
  repeat split; assumption.
Defined.
